(** * Data Quality panel: threshold logic, duplicate grouping and
      the computing-status state machine.

    Shallow embedding of [plugins/panels/data_quality/__init__.py].

    Conventions of the embedding
    - Python numbers (thresholds, field bounds, histogram edges) are
      floats, that is IEEE 754 doubles.  A finite double is written as the
      rational it is, in [Q]; comparisons are the exact boolean ones of
      [QArith]; [+], [-], [*] and [/] give the exact result rounded to
      the nearest double, ties to even ([round_double]).  Infinities and
      NaN are not modelled: a statement speaks of finite values, and
      where it depends on the value of an operation it asks for an exact
      result within the range of doubles ([in_double_range]).
    - [None]-or-number values are [option Q].
    - A Python call that may raise returns [res A]: [Ok a] or [Raise e].
    - Dictionaries keyed by issue type are [gmap string _]; the duplicate
      hash set is a [gset string]; the insertion-ordered [defaultdict(list)]
      is an association list.
    - An event handler is a function on a world (store blob, panel state,
      clock readings) that returns or raises; the host collaborators
      (dataset queries, delegated-operation service, clock, the tables of
      [constants.py]) are a record fixed while one handler runs, so a
      query asked twice by one handler is answered the same way twice.
    - Calls that only reach the user interface ([ctx.ops.set_view],
      [ctx.ops.clear_view], [ctx.log], widget values set by path) are left
      out. *)

From Stdlib Require Import QArith Lqa.
From stdpp Require Import gmap strings list fin_maps.

Local Open Scope string_scope.
Local Open Scope list_scope.

(** ** Exceptions and results *)

Inductive exn : Type :=
  | TypeError
  | KeyError
  | ValueError
  | IndexError
  | AttributeError
  | Exception.

Inductive res (A : Type) : Type :=
  | Ok (a : A)
  | Raise (e : exn).
Arguments Ok {A} a.
Arguments Raise {A} e.

#[global] Instance res_ret : MRet res := fun A a => Ok a.
#[global] Instance res_bind : MBind res := fun A B k m =>
  match m with
  | Ok a => k a
  | Raise e => Raise e
  end.

(** ** Numbers *)

Definition Qleb (x y : Q) : bool := Qle_bool x y.
Definition Qltb (x y : Q) : bool := negb (Qle_bool y x).

(** Python truthiness of a [None]-or-number value: [None] and [0] are
    falsy. *)
Definition truthy (v : option Q) : bool :=
  match v with
  | Some q => negb (Qeq_bool q 0)
  | None => false
  end.

Definition is_not_None {A} (v : option A) : bool :=
  match v with Some _ => true | None => false end.

(** *** Float arithmetic *)

(** [floor (log2 (n / d))]. *)
Definition Qlog2 (n d : positive) : Z :=
  let k := (Z.log2 (Z.pos n) - Z.log2 (Z.pos d))%Z in
  if (if (0 <=? k)%Z
      then (Z.pos d * 2 ^ k <=? Z.pos n)%Z
      else (Z.pos d <=? Z.pos n * 2 ^ (- k))%Z)
  then k else (k - 1)%Z.

(** The integer nearest to [num / den], ties to even. *)
Definition round_half_even (num den : Z) : Z :=
  let q := (num / den)%Z in
  let r := (num mod den)%Z in
  match (2 * r ?= den)%Z with
  | Lt => q
  | Gt => (q + 1)%Z
  | Eq => if Z.even q then q else (q + 1)%Z
  end.

(** The double nearest to [n / d]: a mantissa of 53 bits at the exponent
    of [n / d], or at the least exponent [-1074] for a subnormal. *)
Definition round_double_pos (n d : positive) : Q :=
  let e := Z.max (Qlog2 n d - 52) (-1074) in
  if (0 <=? e)%Z then
    inject_Z (round_half_even (Z.pos n) (Z.pos d * 2 ^ e) * 2 ^ e)
  else
    Qred (round_half_even (Z.pos n * 2 ^ (- e)) (Z.pos d)
          # Z.to_pos (2 ^ (- e))).

Definition round_double (x : Q) : Q :=
  match Qnum x with
  | Z0 => 0
  | Zpos n => round_double_pos n (Qden x)
  | Zneg n => - round_double_pos n (Qden x)
  end.

(** [x + y], [x - y], [x * y] and [x / y] on floats. *)
Definition fadd (x y : Q) : Q := round_double (x + y).
Definition fsub (x y : Q) : Q := round_double (x - y).
Definition fmul (x y : Q) : Q := round_double (x * y).
Definition fdiv (x y : Q) : Q := round_double (x / y).
#[global] Arguments fadd : simpl never.
#[global] Arguments fsub : simpl never.
#[global] Arguments fmul : simpl never.
#[global] Arguments fdiv : simpl never.

(** The largest double, and the exact results that a float operation
    rounds to a finite double (not to an infinity). *)
Definition double_max : Q := inject_Z (2 ^ 1024 - 2 ^ 971).

Definition in_double_range (x : Q) : Prop :=
  (- double_max <= x <= double_max)%Q.

(** No operation of [min_v + f * (max_v - min_v)] leaves that range. *)
Definition percentage_in_range (min_v max_v f : Q) : Prop :=
  in_double_range (max_v - min_v) /\
  in_double_range (f * fsub max_v min_v) /\
  in_double_range (min_v + fmul f (fsub max_v min_v)).

(** [None * x] raises [TypeError]. *)
Definition py_mul (v : option Q) (x : Q) : res Q :=
  match v with
  | Some q => Ok (fmul q x)
  | None => Raise TypeError
  end.

(** [l[i]] on a list. *)
Definition getitem {A} (l : list A) (i : nat) : res A :=
  match l !! i with
  | Some a => Ok a
  | None => Raise IndexError
  end.

(** ** [get_threshold_range] *)

Definition get_threshold_range
    (min_v max_v lower_std_bound upper_std_bound : Q) : Q * Q :=
  if (Qleb lower_std_bound min_v && Qleb min_v upper_std_bound)
     && (Qleb lower_std_bound max_v && Qleb max_v upper_std_bound)
  then (min_v, max_v)
  else if Qltb min_v lower_std_bound && Qleb max_v upper_std_bound
  then (min_v, lower_std_bound)
  else if Qltb upper_std_bound max_v && Qleb lower_std_bound min_v
  then (upper_std_bound, max_v)
  else if Qltb min_v lower_std_bound && Qltb upper_std_bound max_v
  then
    if Qltb (fsub max_v upper_std_bound) (fsub lower_std_bound min_v)
    then (min_v, lower_std_bound)
    else (upper_std_bound, max_v)
  else (lower_std_bound, upper_std_bound).

(** ** [get_plot_defaults] *)

(** One entry of [ctx.panel.state.issue_config].  A key that is absent
    and a key bound to [None] are the same to the code
    ([issue_config["min"] if "min" in issue_config else None]). *)
Record IssueConfig : Type := {
  cfg_min : option Q;
  cfg_max : option Q;
  detect_method : string;
}.

(** The saved-threshold guard at the top of [get_plot_defaults]; [and]
    short-circuits, so the comparisons only run on truthy values. *)
Definition saved_in_bounds (new_lower new_upper : option Q) (min_v max_v : Q)
    : option (Q * Q) :=
  match new_lower, new_upper with
  | Some lo, Some up =>
      if truthy new_lower && truthy new_upper
         && Qleb min_v lo && Qltb lo max_v
         && Qltb min_v up && Qleb up max_v
      then Some (lo, up)
      else None
  | _, _ => None
  end.

(** The body of [get_plot_defaults] once it has read the entry
    [issue_config] of the field and the observed bounds [(min_v, max_v)]
    of the field.  A method other than the two known ones falls off the
    end of the function, which returns [None]. *)
Definition resolve_plot_defaults
    (issue_config : IssueConfig) (min_v max_v : Q) (method : string)
    : res (option (Q * Q)) :=
  let new_lower := cfg_min issue_config in
  let new_upper := cfg_max issue_config in
  match saved_in_bounds new_lower new_upper min_v max_v with
  | Some r => Ok (Some r)
  | None =>
    if String.eqb method "percentage" then
      let value_range := fsub max_v min_v in
      lower_factor ← py_mul new_lower value_range;
      let lower_thresh :=
        if is_not_None new_lower && Qleb (fadd min_v lower_factor) max_v
        then fadd min_v lower_factor else min_v in
      upper_factor ← py_mul new_upper value_range;
      let upper_thresh :=
        if is_not_None new_upper && Qleb min_v (fadd min_v upper_factor)
        then fadd min_v upper_factor else max_v in
      if Qltb upper_thresh lower_thresh
      then Ok (Some (min_v, min_v))
      else Ok (Some (lower_thresh, upper_thresh))
    else if String.eqb method "threshold" then
      match new_upper with
      | None => Raise TypeError
      | Some up =>
          if Qltb up min_v then Ok (Some (up, up))
          else
            match new_lower with
            | None => Raise TypeError
            | Some lo =>
                if Qltb max_v lo then Ok (Some (lo, lo))
                else Ok (Some (lo, up))
            end
      end
    else Ok None
  end.

(** ** [prepare_histogram_data] *)

(** The body of the [for i in range(len(counts))] loop, run over the
    indices [idx] with the two accumulators. *)
Fixpoint prepare_histogram_loop
    (idx : list nat) (counts : list Z) (edges : list Q)
    (lower_thresh upper_thresh : Q)
    (in_threshold_counts out_of_threshold_counts : list Z)
    : res (list Z * list Z) :=
  match idx with
  | [] => Ok (in_threshold_counts, out_of_threshold_counts)
  | i :: idx' =>
      range_start ← getitem edges i;
      range_end ← getitem edges (i + 1);
      let midpoint := fdiv (fadd range_start range_end) 2 in
      c ← getitem counts i;
      if Qleb lower_thresh midpoint && Qleb midpoint upper_thresh
      then prepare_histogram_loop idx' counts edges lower_thresh upper_thresh
             (in_threshold_counts ++ [c]) (out_of_threshold_counts ++ [0%Z])
      else prepare_histogram_loop idx' counts edges lower_thresh upper_thresh
             (in_threshold_counts ++ [0%Z]) (out_of_threshold_counts ++ [c])
  end.

Definition prepare_histogram_data
    (counts : list Z) (edges : list Q) (lower_thresh upper_thresh : Q)
    : res (list Z * list Z) :=
  prepare_histogram_loop (seq 0 (length counts)) counts edges
    lower_thresh upper_thresh [] [].

(** ** [_process_exact_duplicates] *)

(** [collections.Counter(filehashes)]: the number of occurrences of each
    hash.  The result is a map, so the order in which the list is folded
    does not show. *)
Definition Counter (filehashes : list string) : gmap string nat :=
  foldr (fun h m => <[h := S (default 0%nat (m !! h))]> m) ∅ filehashes.

(** [filehash_to_ids[filehash].append(id)] on a [defaultdict(list)]: the
    dictionary keeps its keys in insertion order, a new key goes last. *)
Fixpoint defaultdict_append {Id : Type}
    (d : list (string * list Id)) (filehash : string) (id : Id)
    : list (string * list Id) :=
  match d with
  | [] => [(filehash, [id])]
  | (k, ids) :: d' =>
      if String.eqb k filehash then (k, ids ++ [id]) :: d'
      else (k, ids) :: defaultdict_append d' filehash id
  end.

(** The host dataset as [_process_exact_duplicates] sees it: whether the
    schema has a ["filehash"] field, and for every sample its id and its
    ["filehash"] value ([None] when the sample does not carry one). *)
Record HashView (Id : Type) : Type := {
  has_filehash_field : bool;
  hash_samples : list (Id * option string);
}.
Arguments has_filehash_field {Id} _.
Arguments hash_samples {Id} _.

(** [ctx.dataset.exists("filehash").values(["id", "filehash"])]: the two
    parallel lists over the samples whose hash is populated. *)
Definition exists_filehash {Id : Type} (ds : HashView Id) : list (Id * string) :=
  omap (fun s => match s.2 with Some h => Some (s.1, h) | None => None end)
       (hash_samples ds).

Definition _process_exact_duplicates {Id : Type} (ds : HashView Id)
    : list string * list (string * list Id) * nat :=
  let '(sample_ids, filehashes) :=
    if has_filehash_field ds
    then ((exists_filehash ds).*1, (exists_filehash ds).*2)
    else ([], []) in
  let filehash_counts := Counter filehashes in
  let dup_filehashes : gset string :=
    dom (filter (fun kv => (1 < kv.2)%nat) filehash_counts) in
  let filehash_to_ids :=
    if bool_decide (dup_filehashes <> ∅)
    then foldl (fun d p =>
                  if bool_decide (p.2 ∈ dup_filehashes)
                  then defaultdict_append d p.2 p.1 else d)
               [] (zip sample_ids filehashes)
    else [] in
  let num_duplicates := sum_list (length <$> filehash_to_ids.*2) in
  (elements dup_filehashes, filehash_to_ids, num_duplicates).

(** ** The store, the panel state and the host *)

(** Modelled from the spec: the [STATUS] table of [constants.py], which
    is not part of the sources.  The spec names the four states in order,
    [NOT_COMPUTED], [COMPUTING], [NEEDS_REVIEW], [REVIEWED]; the code
    indexes the table with [0..3]. *)
Inductive IssueStatus : Type :=
  | NOT_COMPUTED
  | COMPUTING
  | NEEDS_REVIEW
  | REVIEWED.

#[global] Instance IssueStatus_eq_dec : EqDecision IssueStatus.
Proof. solve_decision. Defined.

Definition STATUS (k : nat) : IssueStatus :=
  match k with
  | 0%nat => NOT_COMPUTED
  | 1%nat => COMPUTING
  | 2%nat => NEEDS_REVIEW
  | _ => REVIEWED
  end.

(** One entry of the ["computing"] dictionary. *)
Record Computing : Type := {
  is_computing : bool;
  execution_type : string;
  delegation_run_id : string;
  delegation_status : string;
}.

(** One entry of ["last_scan"]; times are microseconds since the epoch.
    An entry bound to [None] is modelled as an absent entry: reading a key
    of it raises in both cases. *)
Record LastScan : Type := {
  timestamp : option Z;
  dataset_size : option nat;
}.

(** One entry of ["results"]: a dictionary with the histogram keys or the
    duplicate keys. *)
Record ResultEntry : Type := {
  r_counts : option (list Z);
  r_edges : option (list Q);
  r_dup_filehash : option (list string);
  r_dup_sample_ids : option (list (string * list string));
}.

(** The blob kept in the execution store.  Its top-level keys are always
    there (it starts as [SAMPLE_STORE] and is only updated key by key);
    ["last_scan"] may be [None]. *)
Record Content : Type := {
  c_results : gmap string ResultEntry;
  c_counts : gmap string nat;
  c_current_counts : gmap string nat;
  c_status : gmap string IssueStatus;
  c_last_scan : option (gmap string LastScan);
  c_computing : gmap string Computing;
}.

(** [ctx.panel.state], as far as the status machine reads or writes it. *)
Record PanelState : Type := {
  screen : string;
  state_issue_type : option string;
  alert : string;
  first_open : bool;
  issue_config : gmap string IssueConfig;
  issue_counts : gmap string nat;
  computing : gmap string Computing;
  new_samples : gmap string (nat * bool * bool);
  hist_lower_thresh : option Q;
  hist_upper_thresh : option Q;
}.

(** [ctx.params]; a key bound to [None] and an absent key are the same to
    every reader below. *)
Record CtxParams : Type := {
  p_issue_type : option string;
  p_run_id : option string;
  p_next_screen : option string;
  p_recompute : option bool;
}.

(** The collaborators of the panel, fixed while one event handler runs:
    the tables of [constants.py] the code reads ([FIELD_NAME],
    [SAMPLE_STORE]), the dataset queries, the delegated-operation service
    and the clock ([utc_clock k] is what the [k]-th call of
    [datetime.utcnow()] returns).  Every query either answers or
    raises. *)
Record Host : Type := {
  FIELD_NAME : gmap string string;
  SAMPLE_STORE : Content;
  dataset_bounds : string -> res (Q * Q);
  dataset_histogram_values : string -> res (list Z * list Q);
  dataset_match_count : string -> option Q -> option Q -> res nat;
  dataset_exists_count : string -> res nat;
  dataset_count : res nat;
  dataset_has_field : string -> bool;
  dataset_filehashes : list (string * option string);
  dos_get : option string -> res (option string);
  utc_clock : nat -> Z;
}.

(** What an event handler changes: the blob under the store key ([None]
    before the first [store.set]), the panel state, and the number of
    clock readings so far. *)
Record World : Type := {
  store : option Content;
  panel : PanelState;
  clock_reads : nat;
}.

(** ** Record updates *)

Definition set_c_results (v : gmap string ResultEntry) (c : Content) : Content :=
  {| c_results := v; c_counts := c_counts c;
     c_current_counts := c_current_counts c; c_status := c_status c;
     c_last_scan := c_last_scan c; c_computing := c_computing c |}.

Definition set_c_counts (v : gmap string nat) (c : Content) : Content :=
  {| c_results := c_results c; c_counts := v;
     c_current_counts := c_current_counts c; c_status := c_status c;
     c_last_scan := c_last_scan c; c_computing := c_computing c |}.

Definition set_c_current_counts (v : gmap string nat) (c : Content) : Content :=
  {| c_results := c_results c; c_counts := c_counts c;
     c_current_counts := v; c_status := c_status c;
     c_last_scan := c_last_scan c; c_computing := c_computing c |}.

Definition set_c_status (v : gmap string IssueStatus) (c : Content) : Content :=
  {| c_results := c_results c; c_counts := c_counts c;
     c_current_counts := c_current_counts c; c_status := v;
     c_last_scan := c_last_scan c; c_computing := c_computing c |}.

Definition set_c_last_scan (v : option (gmap string LastScan)) (c : Content)
    : Content :=
  {| c_results := c_results c; c_counts := c_counts c;
     c_current_counts := c_current_counts c; c_status := c_status c;
     c_last_scan := v; c_computing := c_computing c |}.

Definition set_c_computing (v : gmap string Computing) (c : Content) : Content :=
  {| c_results := c_results c; c_counts := c_counts c;
     c_current_counts := c_current_counts c; c_status := c_status c;
     c_last_scan := c_last_scan c; c_computing := v |}.

Definition set_screen (v : string) (ps : PanelState) : PanelState :=
  {| screen := v; state_issue_type := state_issue_type ps; alert := alert ps;
     first_open := first_open ps; issue_config := issue_config ps;
     issue_counts := issue_counts ps; computing := computing ps;
     new_samples := new_samples ps;
     hist_lower_thresh := hist_lower_thresh ps;
     hist_upper_thresh := hist_upper_thresh ps |}.

Definition set_issue_type (v : option string) (ps : PanelState) : PanelState :=
  {| screen := screen ps; state_issue_type := v; alert := alert ps;
     first_open := first_open ps; issue_config := issue_config ps;
     issue_counts := issue_counts ps; computing := computing ps;
     new_samples := new_samples ps;
     hist_lower_thresh := hist_lower_thresh ps;
     hist_upper_thresh := hist_upper_thresh ps |}.

Definition set_alert (v : string) (ps : PanelState) : PanelState :=
  {| screen := screen ps; state_issue_type := state_issue_type ps; alert := v;
     first_open := first_open ps; issue_config := issue_config ps;
     issue_counts := issue_counts ps; computing := computing ps;
     new_samples := new_samples ps;
     hist_lower_thresh := hist_lower_thresh ps;
     hist_upper_thresh := hist_upper_thresh ps |}.

Definition set_first_open (v : bool) (ps : PanelState) : PanelState :=
  {| screen := screen ps; state_issue_type := state_issue_type ps; alert := alert ps;
     first_open := v; issue_config := issue_config ps;
     issue_counts := issue_counts ps; computing := computing ps;
     new_samples := new_samples ps;
     hist_lower_thresh := hist_lower_thresh ps;
     hist_upper_thresh := hist_upper_thresh ps |}.

Definition set_issue_counts (v : gmap string nat) (ps : PanelState) : PanelState :=
  {| screen := screen ps; state_issue_type := state_issue_type ps; alert := alert ps;
     first_open := first_open ps; issue_config := issue_config ps;
     issue_counts := v; computing := computing ps;
     new_samples := new_samples ps;
     hist_lower_thresh := hist_lower_thresh ps;
     hist_upper_thresh := hist_upper_thresh ps |}.

Definition set_computing (v : gmap string Computing) (ps : PanelState)
    : PanelState :=
  {| screen := screen ps; state_issue_type := state_issue_type ps; alert := alert ps;
     first_open := first_open ps; issue_config := issue_config ps;
     issue_counts := issue_counts ps; computing := v;
     new_samples := new_samples ps;
     hist_lower_thresh := hist_lower_thresh ps;
     hist_upper_thresh := hist_upper_thresh ps |}.

Definition set_new_samples (v : gmap string (nat * bool * bool))
    (ps : PanelState) : PanelState :=
  {| screen := screen ps; state_issue_type := state_issue_type ps; alert := alert ps;
     first_open := first_open ps; issue_config := issue_config ps;
     issue_counts := issue_counts ps; computing := computing ps;
     new_samples := v;
     hist_lower_thresh := hist_lower_thresh ps;
     hist_upper_thresh := hist_upper_thresh ps |}.

Definition set_hist_thresh (lo up : option Q) (ps : PanelState) : PanelState :=
  {| screen := screen ps; state_issue_type := state_issue_type ps; alert := alert ps;
     first_open := first_open ps; issue_config := issue_config ps;
     issue_counts := issue_counts ps; computing := computing ps;
     new_samples := new_samples ps;
     hist_lower_thresh := lo;
     hist_upper_thresh := up |}.

(** ** The monad of event handlers *)

(** A handler runs on a world and returns or raises; what it wrote before
    raising stays written. *)
Definition M (A : Type) : Type := World -> res A * World.

#[global] Instance M_ret : MRet M := fun A a w => (Ok a, w).
#[global] Instance M_bind : MBind M := fun A B k m w =>
  match m w with
  | (Ok a, w') => k a w'
  | (Raise e, w') => (Raise e, w')
  end.

Definition lift {A} (r : res A) : M A := fun w => (r, w).
Definition raise {A} (e : exn) : M A := fun w => (Raise e, w).

(** [try: body except: handler] and [try: body except ValueError: handler]. *)
Definition try_except {A} (body : M A) (handler : M A) : M A := fun w =>
  match body w with
  | (Ok a, w') => (Ok a, w')
  | (Raise _, w') => handler w'
  end.

Definition try_except_ValueError {A} (body : M A) (handler : M A) : M A :=
  fun w =>
    match body w with
    | (Raise ValueError, w') => handler w'
    | r => r
    end.

Definition store_get : M (option Content) := fun w => (Ok (store w), w).

Definition store_set (content : Content) : M unit := fun w =>
  (Ok tt, {| store := Some content; panel := panel w;
             clock_reads := clock_reads w |}).

Definition get_panel : M PanelState := fun w => (Ok (panel w), w).

Definition modify_panel (f : PanelState -> PanelState) : M unit := fun w =>
  (Ok tt, {| store := store w; panel := f (panel w);
             clock_reads := clock_reads w |}).

(** [datetime.utcnow()] *)
Definition utcnow (h : Host) : M Z := fun w =>
  (Ok (utc_clock h (clock_reads w)),
   {| store := store w; panel := panel w;
      clock_reads := S (clock_reads w) |}).

(** [timedelta(minutes=n)] in microseconds. *)
Definition timedelta_minutes (n : Z) : Z := (n * 60 * 1000000)%Z.

(** [d[k]] on a dictionary. *)
Definition dict_getitem {A} (d : gmap string A) (k : string) : res A :=
  match d !! k with
  | Some a => Ok a
  | None => Raise KeyError
  end.

(** A subscript or attribute access on a value that may be [None]. *)
Definition not_None {A} (e : exn) (v : option A) : res A :=
  match v with
  | Some a => Ok a
  | None => Raise e
  end.

(** [str(v)] for a string or [None]. *)
Definition py_str (v : option string) : string := default "None" v.

(** [s.lower()] on ASCII letters. *)
Definition lower_ascii (c : Ascii.ascii) : Ascii.ascii :=
  let n := Ascii.nat_of_ascii c in
  if (65 <=? n)%nat && (n <=? 90)%nat then Ascii.ascii_of_nat (n + 32) else c.

Fixpoint lower (s : string) : string :=
  match s with
  | EmptyString => EmptyString
  | String c s' => String (lower_ascii c) (lower s')
  end.

(** ** Event handlers *)

(** [get_plot_defaults(ctx, field, method)]: [ctx] is read through the
    panel state [ps] and the host [h]. *)
Definition get_plot_defaults
    (h : Host) (ps : PanelState) (field method : string)
    : res (option (Q * Q)) :=
  cfg ← dict_getitem (issue_config ps) field;
  field_name ← dict_getitem (FIELD_NAME h) field;
  '(min_v, max_v) ← dataset_bounds h field_name;
  resolve_plot_defaults cfg min_v max_v method.

(** [lower, upper = <value>]: unpacking [None] raises [TypeError]. *)
Definition unpack_pair (v : option (Q * Q)) : res (Q * Q) :=
  not_None TypeError v.

Definition _get_issue_status (issue_type : string) : M IssueStatus :=
  content ← store_get;
  match content with
  | None => mret (STATUS 0)
  | Some content => mret (default (STATUS 0) (c_status content !! issue_type))
  end.

(** [change_computing_status]; the keyword defaults of the source
    ([False], [""], [""], [""], [None]) are written out at each call.
    [issue_status in list(STATUS.values())] holds exactly for a status, not
    for [None]. *)
Definition change_computing_status
    (issue_type : string) (is_computing : bool)
    (execution_type delegation_run_id delegation_status : string)
    (issue_status : option IssueStatus) : M unit :=
  content ← store_get;
  ps ← get_panel;
  let computing_copy :=
    <[issue_type := {| is_computing := is_computing;
                       execution_type := execution_type;
                       delegation_run_id := delegation_run_id;
                       delegation_status := delegation_status |}]>
      (computing ps) in
  _ ← modify_panel (set_computing computing_copy);
  content ← lift (not_None TypeError content);
  let content := set_c_computing computing_copy content in
  let content :=
    match issue_status with
    | Some s => set_c_status (<[issue_type := s]> (c_status content)) content
    | None => content
    end in
  store_set content.

Definition should_reset_issue (h : Host) (issue_type : string) : M bool :=
  st ← _get_issue_status issue_type;
  if bool_decide (st ∈ [STATUS 2; STATUS 3]) then
    field_name ← lift (dict_getitem (FIELD_NAME h) issue_type);
    sample_count_with_field ← lift (dataset_exists_count h field_name);
    if (sample_count_with_field =? 0)%nat then mret true else mret false
  else mret false.

Definition reset_issue (h : Host) (issue_type : string) : M unit :=
  _ ← change_computing_status issue_type false "" "" "" (Some (STATUS 0));
  content ← store_get;
  content ← lift (not_None TypeError content);
  r ← lift (dict_getitem (c_results (SAMPLE_STORE h)) issue_type);
  let content := set_c_results (<[issue_type := r]> (c_results content)) content in
  sample_ls ← lift (not_None TypeError (c_last_scan (SAMPLE_STORE h)));
  l ← lift (dict_getitem sample_ls issue_type);
  ls ← lift (not_None TypeError (c_last_scan content));
  let content := set_c_last_scan (Some (<[issue_type := l]> ls)) content in
  store_set content.

Definition set_hist_defaults (h : Host) : M unit :=
  ps ← get_panel;
  field ← lift (not_None KeyError (state_issue_type ps));
  cfg ← lift (dict_getitem (issue_config ps) field);
  match hist_lower_thresh ps, hist_upper_thresh ps with
  | Some _, Some _ => mret tt
  | _, _ =>
      r ← lift (get_plot_defaults h ps field (detect_method cfg));
      '(lower_threshold, upper_threshold) ← lift (unpack_pair r);
      modify_panel (set_hist_thresh (Some lower_threshold) (Some upper_threshold))
  end.

(** [change_view]; [ctx.ops.set_view], [ctx.ops.clear_view] and the
    widget values set by path only reach the host's user interface and
    are left out. *)
Definition change_view (h : Host) (issue_type : string) : M unit :=
  field ← lift (dict_getitem (FIELD_NAME h) issue_type);
  content ← store_get;
  content ← lift (not_None AttributeError content);
  st ← lift (dict_getitem (c_status content) issue_type);
  let content :=
    if bool_decide (st = STATUS 0)
    then set_c_status (<[issue_type := STATUS 2]> (c_status content)) content
    else content in
  ps ← get_panel;
  if negb (bool_decide (issue_type ∈ ["near_duplicates"; "exact_duplicates"]))
     && (truthy (hist_lower_thresh ps) || truthy (hist_upper_thresh ps))
  then
    num_issue_samples ← lift (dataset_match_count h field
                                (hist_lower_thresh ps) (hist_upper_thresh ps));
    _ ← modify_panel (fun ps =>
          set_issue_counts (<[issue_type := num_issue_samples]> (issue_counts ps)) ps);
    let content :=
      set_c_current_counts
        (<[issue_type := num_issue_samples]> (c_current_counts content)) content in
    store_set content
  else if String.eqb issue_type "near_duplicates"
          && (truthy (hist_lower_thresh ps) || truthy (hist_upper_thresh ps))
  then
    num_issue_samples ← lift (dataset_match_count h field
                                (hist_lower_thresh ps) (hist_upper_thresh ps));
    _ ← modify_panel (fun ps =>
          set_issue_counts (<[issue_type := num_issue_samples]> (issue_counts ps)) ps);
    let content :=
      set_c_current_counts
        (<[issue_type := num_issue_samples]> (c_current_counts content)) content in
    store_set content
  else if String.eqb issue_type "exact_duplicates" && dataset_has_field h field
  then
    entry ← lift (dict_getitem (c_results content) issue_type);
    dup_filehashes ← lift (not_None KeyError (r_dup_filehash entry));
    num_duplicates ← lift (dict_getitem (c_counts content) issue_type);
    _ ← modify_panel (fun ps =>
          set_issue_counts (<[issue_type := num_duplicates]> (issue_counts ps)) ps);
    let content :=
      set_c_counts (<[issue_type := num_duplicates]> (c_counts content)) content in
    let content :=
      set_c_current_counts
        (<[issue_type := num_duplicates]> (c_current_counts content)) content in
    store_set content
  else mret tt.

(** The dataset as [_process_exact_duplicates] queries it. *)
Definition hash_view (h : Host) : HashView string :=
  {| has_filehash_field := dataset_has_field h "filehash";
     hash_samples := dataset_filehashes h |}.

(** [_process_issue_computation] up to its last statement, which is
    [if not recompute: self.navigate_to_screen(...)].  This is all of
    [_process_issue_computation(ctx, issue_type, recompute=True)], the
    form in which [navigate_to_screen] calls it back.  A store without a
    blob shows at the first write to [content], after the duplicates or
    the histogram have been read. *)
Definition _process_issue_computation_recompute
    (h : Host) (issue_type : string) : M unit :=
  content ← store_get;
  content ←
    (if String.eqb issue_type "exact_duplicates" then
       let '(dup_filehashes, dup_sample_ids, num_duplicates) :=
         _process_exact_duplicates (hash_view h) in
       content ← lift (not_None TypeError content);
       entry ← lift (dict_getitem (c_results content) issue_type);
       let entry :=
         {| r_counts := r_counts entry; r_edges := r_edges entry;
            r_dup_filehash := Some dup_filehashes;
            r_dup_sample_ids := Some dup_sample_ids |} in
       let content :=
         set_c_results (<[issue_type := entry]> (c_results content)) content in
       mret (set_c_counts (<[issue_type := num_duplicates]> (c_counts content))
                          content)
     else
       field_name ← lift (dict_getitem (FIELD_NAME h) issue_type);
       '(counts, edges) ← lift (dataset_histogram_values h field_name);
       content ← lift (not_None TypeError content);
       let content :=
         set_c_results
           (<[issue_type := {| r_counts := Some counts; r_edges := Some edges;
                               r_dup_filehash := None;
                               r_dup_sample_ids := None |}]> (c_results content))
           content in
       ps ← get_panel;
       cfg ← lift (dict_getitem (issue_config ps) issue_type);
       r ← lift (get_plot_defaults h ps issue_type (detect_method cfg));
       '(lower_threshold, upper_threshold) ← lift (unpack_pair r);
       num_issue_samples ← lift (dataset_match_count h field_name
                                   (Some lower_threshold) (Some upper_threshold));
       mret (set_c_counts (<[issue_type := num_issue_samples]> (c_counts content))
                          content));
  let last_scan := default ∅ (c_last_scan content) in
  now ← utcnow h;
  size ← lift (dataset_count h);
  let content :=
    set_c_last_scan
      (Some (<[issue_type := {| timestamp := Some now;
                                dataset_size := Some size |}]> last_scan))
      content in
  _ ← store_set content;
  ps ← get_panel;
  ns ← lift (dict_getitem (new_samples ps) issue_type);
  _ ← (if (0 <? ns.1.1)%nat && ns.2
       then modify_panel
              (set_new_samples (<[issue_type := (0%nat, true, true)]> (new_samples ps)))
       else mret tt);
  let computing_field := c_computing content !! issue_type in
  change_computing_status issue_type false
    (default "" (execution_type <$> computing_field))
    (default "" (delegation_run_id <$> computing_field))
    "" (Some (STATUS 2)).

(** [navigate_to_screen]; every call below names the issue type.  The
    three [ctx.params] entries override the arguments unless [None]. *)
Definition navigate_to_screen
    (h : Host) (params : CtxParams)
    (issue_type next_screen : string) (recompute : bool) : M unit :=
  let issue_type := default issue_type (p_issue_type params) in
  let next_screen := default next_screen (p_next_screen params) in
  let recompute := default recompute (p_recompute params) in
  _ ← modify_panel (fun ps =>
        set_first_open false
          (set_screen next_screen (set_issue_type (Some issue_type) ps)));
  _ ← (if String.eqb next_screen "home"
       then modify_panel (fun ps =>
              set_issue_type None (set_hist_thresh None None ps))
       else mret tt);
  if String.eqb next_screen "analysis" then
    continue ←
      try_except_ValueError
        (_ ← (if recompute
              then _process_issue_computation_recompute h issue_type
              else mret tt);
         _ ← (if bool_decide
                   (issue_type ∈ ["brightness"; "blurriness"; "aspect_ratio";
                                  "entropy"; "near_duplicates"])
              then set_hist_defaults h
              else mret tt);
         st ← _get_issue_status issue_type;
         _ ← (if bool_decide (st <> STATUS 3)
              then change_computing_status issue_type false "" "" ""
                     (Some (STATUS 2))
              else mret tt);
         mret true)
        (reset ← should_reset_issue h issue_type;
         if reset : bool then
           _ ← reset_issue h issue_type;
           _ ← modify_panel (set_screen "pre_load_compute");
           mret false
         else raise ValueError);
    if continue : bool then change_view h issue_type else mret tt
  else mret tt.

Definition _process_issue_computation
    (h : Host) (params : CtxParams) (issue_type : string) (recompute : bool)
    : M unit :=
  _ ← _process_issue_computation_recompute h issue_type;
  if negb recompute
  then navigate_to_screen h params issue_type "analysis" false
  else mret tt.

Definition check_computing_status (h : Host) (params : CtxParams) : M unit :=
  let run_id := p_run_id params in
  issue_type ← lift (not_None Exception (p_issue_type params));
  content ← store_get;
  content ← lift (not_None AttributeError content);
  let exec_type := execution_type <$> (c_computing content !! issue_type) in
  if negb (bool_decide (exec_type = Some "delegate_execution")) then
    last_scan ← lift (not_None TypeError (c_last_scan content));
    entry ← lift (dict_getitem last_scan issue_type);
    last_scan_timestamp ←
      match timestamp entry with
      | Some t => mret t
      | None =>
          now ← utcnow h;
          let content :=
            set_c_last_scan
              (Some (<[issue_type := {| timestamp := Some now;
                                        dataset_size := dataset_size entry |}]>
                       last_scan))
              content in
          _ ← store_set content;
          mret now
      end;
    now ← utcnow h;
    if (last_scan_timestamp + timedelta_minutes 10 <? now)%Z
    then change_computing_status issue_type false "" "" "" (Some (STATUS 0))
    else mret tt
  else
    match dos_get h run_id with
    | Raise _ =>
        change_computing_status issue_type false "" "" "" (Some (STATUS 0))
    | Ok delegated_state =>
        if bool_decide (delegated_state = Some "failed") then
          _ ← change_computing_status issue_type false "" "" ""
                (Some (STATUS 0));
          try_except
            (_process_issue_computation h params issue_type false)
            (_ ← modify_panel (set_alert ("computation_failed_" +:+ issue_type));
             ps ← get_panel;
             if bool_decide (state_issue_type ps = Some issue_type)
             then navigate_to_screen h params issue_type "home" false
             else mret tt)
        else if bool_decide (delegated_state = Some "completed") then
          _ ← change_computing_status issue_type false "delegate_execution"
                (py_str run_id) (lower "completed") (Some (STATUS 2));
          _ ← _process_issue_computation h params issue_type true;
          ps ← get_panel;
          if bool_decide (state_issue_type ps = Some issue_type)
             && String.eqb (screen ps) "pre_load_compute"
          then navigate_to_screen h params issue_type "analysis" false
          else mret tt
        else
          match delegated_state with
          | Some state =>
              change_computing_status issue_type true "delegate_execution"
                (py_str run_id) (lower state) None
          | None => mret tt
          end
    end.

(** ** Further handlers *)

(** [ctx.user]: [None] when nobody is signed in; the permission of a
    signed-in user may itself be [None]. *)
Record User : Type := {
  dataset_permission : option string;
}.

Definition missing_min_access_required
    (user : option User) (min_required_dataset_access : string) : bool :=
  match user with
  | None => false
  | Some u =>
      let user_dataset_access := dataset_permission u in
      if String.eqb min_required_dataset_access "TAG" then
        negb (bool_decide
                (user_dataset_access ∈ [Some "TAG"; Some "EDIT"; Some "MANAGE"]))
      else if String.eqb min_required_dataset_access "EDIT" then
        negb (bool_decide (user_dataset_access ∈ [Some "EDIT"; Some "MANAGE"]))
      else true
  end.

(** [estimate_execution_wait_time]; [//] is floor division. *)
Definition estimate_execution_wait_time
    (h : Host) (ps : PanelState) (subset : Z) : res Z :=
  dataset_size ←
    (if (0 <? subset)%Z then Ok subset
     else n ← dataset_count h; Ok (Z.of_nat n));
  if bool_decide (state_issue_type ps = Some "brightness") then
    Ok (45 * (dataset_size / 5000))%Z
  else if bool_decide (state_issue_type ps = Some "blurriness") then
    Ok (45 * (dataset_size / 5000))%Z
  else if bool_decide (state_issue_type ps = Some "aspect_ratio") then
    Ok (45 * (dataset_size / 5000))%Z
  else if bool_decide (state_issue_type ps = Some "entropy") then
    Ok (45 * (dataset_size / 5000))%Z
  else if bool_decide (state_issue_type ps = Some "near_duplicates") then
    Ok (45 * 3 * (dataset_size / 5000))%Z
  else if bool_decide (state_issue_type ps = Some "exact_duplicates") then
    Ok (45 * 2 * (dataset_size / 5000))%Z
  else Ok 0%Z.

(** [on_unload]; [dataset_is_None] and [computing_is_None] are the tests
    [ctx.dataset is None] and [ctx.panel.state.computing is None] (the
    panel record holds the dictionary for the case that it is set).
    [ctx.ops.clear_view()] only reaches the user interface. *)
Definition on_unload (dataset_is_None computing_is_None : bool) : M unit :=
  if dataset_is_None then mret tt
  else
    content ← store_get;
    ps ← get_panel;
    match content with
    | Some content =>
        if negb computing_is_None
        then store_set (set_c_computing (computing ps) content)
        else mret tt
    | None => mret tt
    end.

(** [_on_compute_option_selected]; [selected_option] is
    [ctx.params["selected_option"]["id"]] when it is there.  Here
    [p_issue_type params = None] stands for [ctx.params] without the key
    ["issue_type"], for which the panel's issue type is taken; an issue
    type that is [None] fails at [new_samples[issue_type]]. *)
Definition _on_compute_option_selected
    (params : CtxParams) (selected_option : option string)
    (execution_option run_id : string) : M unit :=
  ps ← get_panel;
  issue_type ← lift (not_None KeyError
                       (match p_issue_type params with
                        | Some i => Some i
                        | None => state_issue_type ps
                        end));
  let dropdown_value := default execution_option selected_option in
  ns ← lift (dict_getitem (new_samples ps) issue_type);
  _ ← (if (0 <? ns.1.1)%nat
       then modify_panel
              (set_new_samples
                 (<[issue_type := (ns.1.1, ns.1.2, true)]> (new_samples ps)))
       else mret tt);
  if String.eqb dropdown_value "execute" then
    change_computing_status issue_type true "execute" "" ""
      (Some (STATUS 1))
  else if bool_decide (dropdown_value ∈ ["delegate"; "delegate_execution"]) then
    change_computing_status issue_type true "delegate_execution" run_id ""
      (Some (STATUS 1))
  else mret tt.

(** Truthiness of a string or [None]. *)
Definition truthy_str (v : option string) : option string :=
  match v with
  | Some "" => None
  | _ => v
  end.

(** [cancel_compute]; [issue_type] is
    [ctx.params["original_params"]["issue_type"]] when it is there.  Both
    branches of the first [if] are [pass], but its condition reads
    [ctx.panel.state.computing[issue_type]]. *)
Definition cancel_compute (issue_type : option string) : M unit :=
  match truthy_str issue_type with
  | Some issue_type =>
      ps ← get_panel;
      _ ← lift (dict_getitem (computing ps) issue_type);
      change_computing_status issue_type false "" "" "" (Some (STATUS 0))
  | None => mret tt
  end.

(** [slider_change]; [value] is [ctx.params["value"]]. *)
Definition slider_change (h : Host) (value : option (list (option Q)))
    : M unit :=
  value ← lift (not_None KeyError value);
  lower ← lift (getitem value 0);
  _ ← modify_panel (fun ps => set_hist_thresh lower (hist_upper_thresh ps) ps);
  upper ← lift (getitem value 1);
  _ ← modify_panel (fun ps => set_hist_thresh (hist_lower_thresh ps) upper ps);
  ps ← get_panel;
  issue_type ← lift (not_None KeyError (state_issue_type ps));
  change_view h issue_type.

(** ** Observations on a world *)

(** What the store holds for an issue type after a handler has run. *)
Definition persisted_status (w : World) (issue_type : string)
    : option IssueStatus :=
  content ← store w; c_status content !! issue_type.

Definition persisted_computing (w : World) (issue_type : string)
    : option Computing :=
  content ← store w; c_computing content !! issue_type.

Definition persisted_last_scan (w : World) (issue_type : string)
    : option LastScan :=
  match store w with
  | Some content =>
      match c_last_scan content with
      | Some last_scan => last_scan !! issue_type
      | None => None
      end
  | None => None
  end.

(** The queries [_process_issue_computation] sends to the dataset, in the
    order of the source.  Of the world they read the issue configuration
    of the panel and nothing else. *)
Definition scan_queries (h : Host) (ps : PanelState) (issue_type : string)
    : res unit :=
  if String.eqb issue_type "exact_duplicates" then
    _ ← dataset_count h; Ok tt
  else
    field_name ← dict_getitem (FIELD_NAME h) issue_type;
    _ ← dataset_histogram_values h field_name;
    cfg ← dict_getitem (issue_config ps) issue_type;
    r ← get_plot_defaults h ps issue_type (detect_method cfg);
    '(lower_threshold, upper_threshold) ← unpack_pair r;
    _ ← dataset_match_count h field_name
          (Some lower_threshold) (Some upper_threshold);
    _ ← dataset_count h; Ok tt.

(** The entry [change_computing_status] writes for an issue type. *)
Definition computing_entry (ic : bool) (et rid ds : string) : Computing :=
  {| is_computing := ic; execution_type := et;
     delegation_run_id := rid; delegation_status := ds |}.

(** ** Concrete inputs *)

(** The six samples of the grouping example: hashes [a a b c c c] on the
    ids [1..6]. *)
Definition example_hashes : HashView nat :=
  {| has_filehash_field := true;
     hash_samples := [(1%nat, Some "a"); (2%nat, Some "a"); (3%nat, Some "b");
                      (4%nat, Some "c"); (5%nat, Some "c"); (6%nat, Some "c")] |}.

(** A store blob, a panel, a host and a world around the single issue type
    ["brightness"], for the examples below. *)
Definition example_computing (exec status : string) : Computing :=
  {| is_computing := true; execution_type := exec;
     delegation_run_id := "64b7f3c2a1d4e5f6a7b8c9d0";
     delegation_status := status |}.

Definition example_content
    (st : IssueStatus) (exec status : string) (ts : option Z) : Content :=
  {| c_results := {["brightness" := {| r_counts := None; r_edges := None;
                                       r_dup_filehash := None;
                                       r_dup_sample_ids := None |}]};
     c_counts := {["brightness" := 0%nat]};
     c_current_counts := {["brightness" := 0%nat]};
     c_status := {["brightness" := st]};
     c_last_scan :=
       Some {["brightness" := {| timestamp := ts; dataset_size := None |}]};
     c_computing := {["brightness" := example_computing exec status]} |}.

Definition example_panel (cfg : IssueConfig) (exec status : string)
    : PanelState :=
  {| screen := "home"; state_issue_type := None; alert := "";
     first_open := false;
     issue_config := {["brightness" := cfg]};
     issue_counts := ∅;
     computing := {["brightness" := example_computing exec status]};
     new_samples := {["brightness" := (0%nat, false, false)]};
     hist_lower_thresh := None; hist_upper_thresh := None |}.

Definition example_host
    (bounds : Q * Q) (run_state : res (option string)) (now : Z) : Host :=
  {| FIELD_NAME := {["brightness" := "brightness"]};
     SAMPLE_STORE := example_content NOT_COMPUTED "" "" None;
     dataset_bounds := fun _ => Ok bounds;
     dataset_histogram_values := fun _ => Ok ([4; 6]%Z, [0; 50; 100]%Q);
     dataset_match_count := fun _ _ _ => Ok 7%nat;
     dataset_exists_count := fun _ => Ok 10%nat;
     dataset_count := Ok 10%nat;
     dataset_has_field := fun _ => true;
     dataset_filehashes := [];
     dos_get := fun _ => run_state;
     utc_clock := fun _ => now |}.

(** The same host with a dataset whose histogram query raises. *)
Definition example_host_no_values (run_state : res (option string)) : Host :=
  {| FIELD_NAME := {["brightness" := "brightness"]};
     SAMPLE_STORE := example_content NOT_COMPUTED "" "" None;
     dataset_bounds := fun _ => Ok (0, 100)%Q;
     dataset_histogram_values := fun _ => Raise ValueError;
     dataset_match_count := fun _ _ _ => Ok 7%nat;
     dataset_exists_count := fun _ => Ok 10%nat;
     dataset_count := Ok 10%nat;
     dataset_has_field := fun _ => true;
     dataset_filehashes := [];
     dos_get := fun _ => run_state;
     utc_clock := fun _ => 0%Z |}.

(** The same host with a dataset that has lost the field: no sample has
    it, and asking for its bounds raises. *)
Definition example_host_no_field : Host :=
  {| FIELD_NAME := {["brightness" := "brightness"]};
     SAMPLE_STORE := example_content NOT_COMPUTED "" "" None;
     dataset_bounds := fun _ => Raise ValueError;
     dataset_histogram_values := fun _ => Raise ValueError;
     dataset_match_count := fun _ _ _ => Ok 0%nat;
     dataset_exists_count := fun _ => Ok 0%nat;
     dataset_count := Ok 10%nat;
     dataset_has_field := fun _ => false;
     dataset_filehashes := [];
     dos_get := fun _ => Ok None;
     utc_clock := fun _ => 0%Z |}.

(** The doubles Python reads for the literals [0.1], [0.2] and [0.9]. *)
Definition float_0_1 : Q := 3602879701896397 # 36028797018963968.
Definition float_0_2 : Q := 3602879701896397 # 18014398509481984.
Definition float_0_9 : Q := 8106479329266893 # 9007199254740992.

Definition example_config : IssueConfig :=
  {| cfg_min := Some float_0_1; cfg_max := Some float_0_9;
     detect_method := "percentage" |}.

Definition example_world
    (st : IssueStatus) (exec status : string) (ts : option Z) : World :=
  {| store := Some (example_content st exec status ts);
     panel := example_panel example_config exec status;
     clock_reads := 0 |}.

Definition example_params : CtxParams :=
  {| p_issue_type := Some "brightness";
     p_run_id := Some "64b7f3c2a1d4e5f6a7b8c9d0";
     p_next_screen := None; p_recompute := None |}.

(** * Properties *)

#[local] Set Warnings "-clear-no-such-hyp".

(** ** Comparisons *)

Lemma Qleb_spec (x y : Q) : reflect (x <= y)%Q (Qleb x y).
Proof.
  unfold Qleb. destruct (Qle_bool x y) eqn:E; constructor.
  - by apply Qle_bool_iff.
  - intros H. apply Qle_bool_iff in H. congruence.
Qed.

Lemma Qltb_spec (x y : Q) : reflect (x < y)%Q (Qltb x y).
Proof.
  unfold Qltb. destruct (Qle_bool y x) eqn:E; constructor.
  - apply Qle_bool_iff in E. by apply Qle_not_lt.
  - apply Qnot_le_lt. intros H. apply Qle_bool_iff in H. congruence.
Qed.

(** ** Float arithmetic at work *)

(** [0.1 + 0.2] is [0.30000000000000004]; [2^53 + 1] is not a double and
    rounds to the even neighbour [2^53]; half of the least subnormal
    rounds to [0]. *)
Lemma round_double_examples :
  fadd float_0_1 float_0_2 = (1351079888211149 # 4503599627370496)%Q /\
  fadd 9007199254740992 1 = 9007199254740992%Q /\
  fdiv (1 # 2 ^ 1074) 2 = 0%Q /\
  fdiv float_0_1 3 = (4803839602528529 # 144115188075855872)%Q.
Proof. vm_compute. repeat split. Qed.

(** With observed bounds [(-5.0, 0.2)] and saved [{min: 1.0, max: 1.0}]
    the float [-5.0 + 1.0 * (0.2 - -5.0)] is [0.20000000000000018], above
    the observed maximum: the lower threshold falls back to [min_v]. *)
Lemma resolve_plot_defaults_rounding_example :
  resolve_plot_defaults
    {| cfg_min := Some 1%Q; cfg_max := Some 1%Q;
       detect_method := "percentage" |}
    (-5) float_0_2 "percentage"
  = Ok (Some ((-5)%Q, (225179981368525 # 1125899906842624)%Q)).
Proof. vm_compute. reflexivity. Qed.

Ltac qcases :=
  repeat match goal with
  | |- context [Qleb ?x ?y] => destruct (Qleb_spec x y)
  | |- context [Qltb ?x ?y] => destruct (Qltb_spec x y)
  end; simpl.

Section ThresholdRange.
Variables min_v max_v lo hi : Q.

Lemma get_threshold_range_inside :
  (lo <= min_v <= hi)%Q -> (lo <= max_v <= hi)%Q ->
  get_threshold_range min_v max_v lo hi = (min_v, max_v).
Proof. intros [? ?] [? ?]. unfold get_threshold_range. qcases; reflexivity || lra. Qed.

Lemma get_threshold_range_below :
  (min_v < lo)%Q -> (max_v <= hi)%Q ->
  get_threshold_range min_v max_v lo hi = (min_v, lo).
Proof. intros ? ?. unfold get_threshold_range. qcases; reflexivity || lra. Qed.

Lemma get_threshold_range_above :
  (hi < max_v)%Q -> (lo <= min_v)%Q ->
  get_threshold_range min_v max_v lo hi = (hi, max_v).
Proof. intros ? ?. unfold get_threshold_range. qcases; reflexivity || lra. Qed.

Lemma get_threshold_range_both_lower :
  (min_v < lo)%Q -> (hi < max_v)%Q -> (fsub max_v hi < fsub lo min_v)%Q ->
  get_threshold_range min_v max_v lo hi = (min_v, lo).
Proof. intros ? ? ?. unfold get_threshold_range. qcases; reflexivity || lra. Qed.

Lemma get_threshold_range_both_upper :
  (min_v < lo)%Q -> (hi < max_v)%Q -> (fsub lo min_v <= fsub max_v hi)%Q ->
  get_threshold_range min_v max_v lo hi = (hi, max_v).
Proof. intros ? ? ?. unfold get_threshold_range. qcases; reflexivity || lra. Qed.

Lemma get_threshold_range_otherwise :
  (lo <= min_v)%Q -> (max_v <= hi)%Q -> (hi < min_v \/ max_v < lo)%Q ->
  get_threshold_range min_v max_v lo hi = (lo, hi).
Proof. intros ? ? ?. unfold get_threshold_range. qcases; reflexivity || lra. Qed.
End ThresholdRange.

Lemma get_threshold_range_idem (min_v max_v lo hi : Q) :
  (lo <= hi)%Q ->
  let r := get_threshold_range min_v max_v lo hi in
  get_threshold_range r.1 r.2 lo hi = r.
Proof.
  intros Hb r. subst r.
  destruct (Qlt_le_dec min_v lo) as [Hmin|Hmin], (Qlt_le_dec hi max_v) as [Hmax|Hmax].
  - destruct (Qlt_le_dec (fsub max_v hi) (fsub lo min_v)) as [Hd|Hd].
    + rewrite (get_threshold_range_both_lower min_v max_v lo hi) by lra. simpl.
      apply get_threshold_range_below; lra.
    + rewrite (get_threshold_range_both_upper min_v max_v lo hi) by lra. simpl.
      apply get_threshold_range_above; lra.
  - rewrite (get_threshold_range_below min_v max_v lo hi) by lra. simpl.
    apply get_threshold_range_below; lra.
  - rewrite (get_threshold_range_above min_v max_v lo hi) by lra. simpl.
    apply get_threshold_range_above; lra.
  - destruct (Qlt_le_dec hi min_v) as [H1|H1]; [|destruct (Qlt_le_dec max_v lo) as [H2|H2]].
    + rewrite (get_threshold_range_otherwise min_v max_v lo hi) by (auto || lra). simpl.
      apply get_threshold_range_inside; lra.
    + rewrite (get_threshold_range_otherwise min_v max_v lo hi) by (auto || lra). simpl.
      apply get_threshold_range_inside; lra.
    + rewrite (get_threshold_range_inside min_v max_v lo hi) by lra. simpl.
      apply get_threshold_range_inside; lra.
Qed.

(** ** Histogram bins *)

Lemma getitem_Some {A} (l : list A) i a : l !! i = Some a -> getitem l i = Ok a.
Proof. unfold getitem. by intros ->. Qed.

Section Histogram.
Variables (counts : list Z) (edges : list Q) (lo hi : Q).
Hypothesis Hlen : length edges = (length counts + 1)%nat.

End Histogram.

(** ** Plot defaults *)

Lemma dict_getitem_Some {A} (d : gmap string A) k a :
  d !! k = Some a -> dict_getitem d k = Ok a.
Proof. unfold dict_getitem. by intros ->. Qed.

Lemma get_plot_defaults_resolve h ps field method cfg fname min_v max_v :
  issue_config ps !! field = Some cfg ->
  FIELD_NAME h !! field = Some fname ->
  dataset_bounds h fname = Ok (min_v, max_v) ->
  get_plot_defaults h ps field method
    = resolve_plot_defaults cfg min_v max_v method.
Proof.
  intros Hc Hf Hb. unfold get_plot_defaults.
  rewrite (dict_getitem_Some _ _ _ Hc), (dict_getitem_Some _ _ _ Hf).
  cbn [mbind res_bind]. rewrite Hb. reflexivity.
Qed.

Lemma saved_in_bounds_None_l up min_v max_v :
  saved_in_bounds None up min_v max_v = None.
Proof. reflexivity. Qed.

Lemma saved_in_bounds_None_r lo min_v max_v :
  saved_in_bounds lo None min_v max_v = None.
Proof. by destruct lo. Qed.

Lemma resolve_percentage_None cfg min_v max_v :
  cfg_min cfg = None \/ cfg_max cfg = None ->
  resolve_plot_defaults cfg min_v max_v "percentage" = Raise TypeError.
Proof.
  unfold resolve_plot_defaults. intros [H|H]; rewrite H.
  - reflexivity.
  - rewrite saved_in_bounds_None_r. cbn [String.eqb Ascii.eqb Bool.eqb].
    by destruct (cfg_min cfg).
Qed.

Lemma resolve_percentage_Some cfg min_v max_v lo up :
  cfg_min cfg = Some lo -> cfg_max cfg = Some up ->
  exists r, resolve_plot_defaults cfg min_v max_v "percentage" = Ok (Some r).
Proof.
  unfold resolve_plot_defaults. intros -> ->.
  destruct (saved_in_bounds _ _ _ _); [eauto|].
  cbn [String.eqb Ascii.eqb Bool.eqb py_mul mbind res_bind].
  match goal with |- context [if Qltb ?a ?b then _ else _] =>
    destruct (Qltb a b) end; eauto.
Qed.

Lemma resolve_percentage_formula cfg min_v max_v lo up :
  cfg_min cfg = Some lo -> cfg_max cfg = Some up ->
  saved_in_bounds (Some lo) (Some up) min_v max_v = None ->
  (fadd min_v (fmul lo (fsub max_v min_v)) <= max_v)%Q ->
  (min_v <= fadd min_v (fmul up (fsub max_v min_v)))%Q ->
  (fadd min_v (fmul lo (fsub max_v min_v))
   <= fadd min_v (fmul up (fsub max_v min_v)))%Q ->
  resolve_plot_defaults cfg min_v max_v "percentage"
    = Ok (Some (fadd min_v (fmul lo (fsub max_v min_v)),
                fadd min_v (fmul up (fsub max_v min_v)))).
Proof.
  unfold resolve_plot_defaults. intros -> -> -> H1 H2 H3.
  cbn [String.eqb Ascii.eqb Bool.eqb py_mul mbind res_bind is_not_None andb].
  destruct (Qleb_spec (fadd min_v (fmul lo (fsub max_v min_v))) max_v);
    [|contradiction].
  destruct (Qleb_spec min_v (fadd min_v (fmul up (fsub max_v min_v))));
    [|contradiction].
  destruct (Qltb_spec (fadd min_v (fmul up (fsub max_v min_v)))
              (fadd min_v (fmul lo (fsub max_v min_v)))); [lra|reflexivity].
Qed.

(** ** Duplicate groups *)

Lemma Counter_lookup (l : list string) (h : string) :
  Counter l !! h =
    if decide (length (filter (fun x => x = h) l) = 0%nat) then None
    else Some (length (filter (fun x => x = h) l)).
Proof.
  induction l as [|x l IH]; [done|].
  cbn [Counter foldr]. fold (Counter l).
  destruct (decide (x = h)) as [->|Hne].
  - rewrite lookup_insert_eq, filter_cons_True by done.
    rewrite IH. simpl. by case_decide as E; [rewrite E|].
  - rewrite lookup_insert_ne, filter_cons_False by done. apply IH.
Qed.

Lemma elem_of_dup_filehashes (l : list string) (h : string) :
  h ∈ dom (filter (fun kv : string * nat => (1 < kv.2)%nat) (Counter l))
  <-> (2 <= length (filter (fun x => x = h) l))%nat.
Proof.
  rewrite elem_of_dom. unfold is_Some.
  setoid_rewrite map_lookup_filter_Some. rewrite Counter_lookup. simpl.
  case_decide as E; split.
  - intros (n & ? & ?). done.
  - lia.
  - intros (n & [= <-] & ?). lia.
  - intros ?. eexists. split; [reflexivity|lia].
Qed.

Lemma filter_snd_length {Id} (pairs : list (Id * string)) (h : string) :
  length (filter (fun x => x = h) pairs.*2)
  = length (filter (fun p : Id * string => p.2 = h) pairs).
Proof.
  induction pairs as [|[i x] pairs IH]; [done|]. cbn [fmap list_fmap snd].
  destruct (decide (x = h)).
  - rewrite !filter_cons_True by done. simpl. by rewrite IH.
  - rewrite !filter_cons_False by done. done.
Qed.

Section Groups.
Context {Id : Type}.
Implicit Types (d : list (string * list Id)) (h k : string) (id : Id).

Lemma defaultdict_append_keys d h id :
  (defaultdict_append d h id).*1
  = if bool_decide (h ∈ d.*1) then d.*1 else d.*1 ++ [h].
Proof.
  induction d as [|[k0 v0] d IH]; [done|].
  cbn [defaultdict_append]. destruct (String.eqb_spec k0 h) as [->|Hne].
  - cbn. rewrite bool_decide_eq_true_2 by set_solver. done.
  - cbn. rewrite IH. rewrite (bool_decide_ext (h ∈ k0 :: d.*1) (h ∈ d.*1)) by set_solver.
    by case_bool_decide.
Qed.

Lemma defaultdict_append_NoDup d h id :
  NoDup d.*1 -> NoDup (defaultdict_append d h id).*1.
Proof.
  intros Hnd. rewrite defaultdict_append_keys. case_bool_decide; [done|].
  apply NoDup_app. split_and!; [done| |apply NoDup_singleton].
  intros x Hx ->%list_elem_of_singleton. done.
Qed.

Lemma defaultdict_append_elem d h id k ids :
  NoDup d.*1 ->
  (k, ids) ∈ defaultdict_append d h id <->
    (k <> h /\ (k, ids) ∈ d) \/
    (k = h /\ ((exists old, (h, old) ∈ d /\ ids = old ++ [id]) \/
               ((h ∉ d.*1) /\ ids = [id]))).
Proof.
  induction d as [|[k0 v0] d IH]; intros Hnd.
  - cbn. rewrite list_elem_of_singleton.
    pose proof (not_elem_of_nil h). pose proof (@not_elem_of_nil (string * list Id)).
    naive_solver.
  - cbn in Hnd. apply NoDup_cons in Hnd as [Hk0 Hnd].
    assert (forall v, (k0, v) ∉ d) as Hk0'.
    { intros v Hin. apply Hk0. by apply (list_elem_of_fmap_2 fst) in Hin. }
    cbn [defaultdict_append]. destruct (String.eqb_spec k0 h) as [->|Hne].
    + rewrite !elem_of_cons. cbn [fmap list_fmap fst].
      setoid_rewrite elem_of_cons. naive_solver.
    + rewrite !elem_of_cons, (IH Hnd). cbn [fmap list_fmap fst].
      setoid_rewrite elem_of_cons. naive_solver.
Qed.

Lemma defaultdict_append_sum d h id :
  sum_list (length <$> (defaultdict_append d h id).*2)
  = S (sum_list (length <$> d.*2)).
Proof.
  induction d as [|[k0 v0] d IH]; [done|].
  cbn [defaultdict_append]. destruct (String.eqb k0 h); cbn.
  - rewrite length_app. simpl. lia.
  - cbn in IH. rewrite IH. lia.
Qed.
End Groups.

Section GroupFold.
Context {Id : Type} (D : gset string).
Implicit Types (pre : list (Id * string)).

Lemma group_fold_inv pre :
  let d := foldl (fun d (p : Id * string) =>
                    if bool_decide (p.2 ∈ D)
                    then defaultdict_append d p.2 p.1 else d) [] pre in
  NoDup d.*1 /\
  (forall h ids, (h, ids) ∈ d <->
     h ∈ D /\ ids = (filter (fun p : Id * string => p.2 = h) pre).*1 /\ ids <> []) /\
  sum_list (length <$> d.*2)
    = length (filter (fun p : Id * string => p.2 ∈ D) pre).
Proof.
  induction pre as [|[id h] pre IH] using rev_ind.
  - cbn. split; [constructor|]. split; [|done].
    intros h ids. rewrite elem_of_nil. naive_solver.
  - rewrite foldl_snoc. cbn zeta in IH |- *.
    set (d := foldl _ [] pre) in *. destruct IH as (Hnd & Hel & Hsum).
    cbn [fst snd]. case_bool_decide as HD.
    + split; [by apply defaultdict_append_NoDup|]. split.
      * intros k ids. rewrite defaultdict_append_elem by done.
        rewrite filter_app, fmap_app.
        destruct (decide (k = h)) as [->|Hne].
        -- rewrite (filter_cons_True _ (id, h)) by done. rewrite filter_nil.
           cbn [fmap list_fmap fst].
           split.
           ++ intros [[? _]|[_ [(old & Hin & ->)|[Hn ->]]]]; [done| |].
              ** apply Hel in Hin as (_ & <- & _). split; [done|]. split; [done|].
                 by destruct old.
              ** split; [done|]. split; [|done].
                 destruct ((filter (fun p : Id * string => p.2 = h) pre).*1) as [|x l] eqn:E; [done|].
                 exfalso. apply Hn.
                 assert ((h, x :: l) ∈ d) as Hin by (apply Hel; rewrite E; done).
                 by apply (list_elem_of_fmap_2 fst) in Hin.
           ++ intros (_ & -> & _). right. split; [done|].
              destruct ((filter (fun p : Id * string => p.2 = h) pre).*1) as [|x l] eqn:E.
              ** right. split; [|done]. intros Hin.
                 apply list_elem_of_fmap in Hin as ([k v] & Heq & Hin).
                 cbn in Heq. subst k.
                 apply Hel in Hin as (_ & -> & Hv). by rewrite E in Hv.
              ** left. exists (x :: l). split; [|done]. apply Hel. rewrite E. done.
        -- rewrite (filter_cons_False _ (id, h)) by (cbn; congruence).
           rewrite filter_nil, fmap_nil, app_nil_r. rewrite Hel. naive_solver.
      * rewrite defaultdict_append_sum, Hsum, filter_app, length_app.
        rewrite (filter_cons_True _ (id, h)) by done. cbn. lia.
    + split; [done|]. split.
      * intros k ids. rewrite Hel, filter_app, fmap_app.
        destruct (decide (k = h)) as [->|Hne]; [naive_solver|].
        rewrite (filter_cons_False _ (id, h)) by (cbn; congruence).
        by rewrite filter_nil, fmap_nil, app_nil_r.
      * rewrite Hsum, filter_app, length_app.
        rewrite (filter_cons_False _ (id, h)) by done. cbn. lia.
Qed.
End GroupFold.

Lemma group_fold_empty {Id} (pre : list (Id * string)) :
  foldl (fun d (p : Id * string) =>
           if bool_decide (p.2 ∈ (∅ : gset string))
           then defaultdict_append d p.2 p.1 else d) [] pre = [].
Proof.
  destruct (group_fold_inv (Id:=Id) ∅ pre) as (_ & Hel & _).
  apply elem_of_nil_inv. intros [h ids] Hin. apply Hel in Hin as [Hin _].
  set_solver.
Qed.

Lemma process_exact_duplicates_unfold {Id} (ds : HashView Id) :
  let pairs := if has_filehash_field ds then exists_filehash ds else [] in
  let D : gset string :=
    dom (filter (fun kv : string * nat => (1 < kv.2)%nat) (Counter pairs.*2)) in
  let d := foldl (fun d (p : Id * string) =>
                    if bool_decide (p.2 ∈ D)
                    then defaultdict_append d p.2 p.1 else d) [] pairs in
  _process_exact_duplicates ds = (elements D, d, sum_list (length <$> d.*2)).
Proof.
  intros pairs D d. unfold _process_exact_duplicates.
  assert ((if has_filehash_field ds
           then ((exists_filehash ds).*1, (exists_filehash ds).*2)
           else ([], [])) = (pairs.*1, pairs.*2)) as ->.
  { subst pairs. by destruct (has_filehash_field ds). }
  rewrite zip_fst_snd. fold D.
  case_bool_decide as HD; [done|].
  assert (D = ∅) as HE by (destruct (decide (D = ∅)); [done|contradiction]).
  subst d. rewrite HE, group_fold_empty. done.
Qed.

(** C2.  [_process_exact_duplicates] returns, without repetition, exactly
    the hashes that occur at least twice among the (sample id, hash)
    pairs; its groups have one entry per such hash, holding the ids of
    that hash in encounter order; and its count is the sum of the group
    sizes, which is the number of pairs whose hash is duplicated.  On the
    hashes [a a b c c c] with ids [1..6] the hash set is [{a, c}], the
    groups are [a -> [1, 2]] and [c -> [4, 5, 6]], the count is [5]. *)
Theorem process_exact_duplicates_groups :
  (forall (Id : Type) (ds : HashView Id),
     let pairs := if has_filehash_field ds then exists_filehash ds else [] in
     let count := fun h => length (filter (fun p : Id * string => p.2 = h) pairs) in
     let r := _process_exact_duplicates ds in
     NoDup r.1.1 /\
     (forall h, h ∈ r.1.1 <-> (2 <= count h)%nat) /\
     NoDup r.1.2.*1 /\
     (forall h ids, (h, ids) ∈ r.1.2 <->
        (2 <= count h)%nat /\
        ids = (filter (fun p : Id * string => p.2 = h) pairs).*1) /\
     r.2 = sum_list (length <$> r.1.2.*2) /\
     r.2 = length (filter (fun p : Id * string => (2 <= count p.2)%nat) pairs))
  /\ (exists dup_filehashes,
        _process_exact_duplicates example_hashes
          = (dup_filehashes, [("a", [1; 2]); ("c", [4; 5; 6])], 5)%nat
        /\ dup_filehashes ≡ₚ ["a"; "c"]).
Proof.
  split.
  - intros Id ds pairs count r. subst r.
    rewrite process_exact_duplicates_unfold. fold pairs. cbn [fst snd].
    set (D := dom _).
    assert (forall h, h ∈ D <-> (2 <= count h)%nat) as HD.
    { intros h. subst D count. rewrite elem_of_dup_filehashes.
      by rewrite filter_snd_length. }
    destruct (group_fold_inv D pairs) as (Hnd & Hel & Hsum).
    split; [apply NoDup_elements|].
    split; [intros h; by rewrite elem_of_elements|].
    split; [done|]. split; [|split; [done|]].
    + intros h ids. rewrite Hel, HD. split; [naive_solver|].
      intros [Hc ->]. split; [done|]. split; [done|].
      intros Hnil. subst count. cbn in Hc.
      rewrite <- (length_fmap fst), Hnil in Hc. cbn in Hc. lia.
    + rewrite Hsum. f_equal. apply list_filter_iff. intros p. apply HD.
  - eexists. split; [vm_compute; reflexivity|]. apply Permutation_swap.
Qed.

(** C8.  On a dataset without a ["filehash"] field, or where no sample
    carries a ["filehash"] value, [_process_exact_duplicates] returns
    [([], [], 0)]; the function is total, it has no raising path. *)
Theorem process_exact_duplicates_empty {Id : Type} (ds : HashView Id) :
  has_filehash_field ds = false \/
  (forall s, s ∈ hash_samples ds -> s.2 = None) ->
  _process_exact_duplicates ds = ([], [], 0%nat).
Proof.
  intros H.
  assert ((if has_filehash_field ds then exists_filehash ds else []) = [])
    as Hp.
  { destruct H as [->|H]; [done|]. destruct (has_filehash_field ds); [|done].
    unfold exists_filehash. induction (hash_samples ds) as [|s l IH]; [done|].
    cbn. rewrite (H s) by (by left). apply IH. intros s' Hs'. apply H. by right. }
  rewrite process_exact_duplicates_unfold, Hp. cbn.
  rewrite map_filter_empty, dom_empty_L, elements_empty. done.
Qed.

Lemma process_exact_duplicates_empty_witness :
  _process_exact_duplicates
    {| has_filehash_field := true;
       hash_samples := [(1%nat, None); (2%nat, None)] |} = ([], [], 0%nat).
Proof.
  apply process_exact_duplicates_empty. right. cbn.
  intros s Hs. repeat (apply elem_of_cons in Hs as [->|Hs]; [reflexivity|]).
  by apply elem_of_nil in Hs.
Defined.

(** ** Threshold range and plot defaults: the claims *)

(** C3, as the code has it.  When only the lower side is out of bounds
    ([min_v < lower_std_bound <= max_v <= upper_std_bound]) the function
    returns the part of the range below the bound,
    [(min_v, lower_std_bound)]; when only the upper side is out of bounds
    it returns the part above, [(upper_std_bound, max_v)]. *)
Theorem get_threshold_range_one_side_out
    (min_v max_v lower_std_bound upper_std_bound : Q) :
  ((min_v < lower_std_bound)%Q ->
   (lower_std_bound <= max_v <= upper_std_bound)%Q ->
   get_threshold_range min_v max_v lower_std_bound upper_std_bound
     = (min_v, lower_std_bound)) /\
  ((upper_std_bound < max_v)%Q ->
   (lower_std_bound <= min_v <= upper_std_bound)%Q ->
   get_threshold_range min_v max_v lower_std_bound upper_std_bound
     = (upper_std_bound, max_v)).
Proof.
  split.
  - intros H1 [H2 H3]. by apply get_threshold_range_below.
  - intros H1 [H2 H3]. by apply get_threshold_range_above.
Qed.

Lemma get_threshold_range_one_side_out_witness :
  get_threshold_range 0 5 2 10 = (0%Q, 2%Q) /\
  get_threshold_range 3 12 2 10 = (10%Q, 12%Q).
Proof.
  split.
  - apply (proj1 (get_threshold_range_one_side_out 0 5 2 10)); [lra|split; lra].
  - apply (proj2 (get_threshold_range_one_side_out 3 12 2 10)); [lra|split; lra].
Defined.

(** C3 as stated fails: with [min_v = 0], [max_v = 5] and bounds
    [[2, 10]] only the lower side is out of bounds, and the result is
    [(0, 2)], not the clamped range [(2, 5)]. *)
Lemma get_threshold_range_clamp_counterexample :
  (0 < 2)%Q /\ (2 <= 5 <= 10)%Q /\
  get_threshold_range 0 5 2 10 = (0%Q, 2%Q) /\
  ~ ((get_threshold_range 0 5 2 10).1 == 2)%Q.
Proof.
  split; [lra|]. split; [split; lra|]. split; [reflexivity|].
  intros H. vm_compute in H. discriminate H.
Qed.

(** C7, as the code has it: for bounds in order
    ([lower_std_bound <= upper_std_bound]) [get_threshold_range] is
    idempotent in its first two arguments. *)
Theorem get_threshold_range_idempotent
    (min_v max_v lower_std_bound upper_std_bound : Q) :
  (lower_std_bound <= upper_std_bound)%Q ->
  get_threshold_range
    (get_threshold_range min_v max_v lower_std_bound upper_std_bound).1
    (get_threshold_range min_v max_v lower_std_bound upper_std_bound).2
    lower_std_bound upper_std_bound
  = get_threshold_range min_v max_v lower_std_bound upper_std_bound.
Proof. intros H. by apply get_threshold_range_idem. Qed.

Lemma get_threshold_range_idempotent_witness :
  get_threshold_range
    (get_threshold_range (-3) 12 2 10).1 (get_threshold_range (-3) 12 2 10).2
    2 10
  = get_threshold_range (-3) 12 2 10.
Proof. apply (get_threshold_range_idempotent (-3) 12 2 10). lra. Defined.

(** C7 as stated fails on bounds given in the wrong order: for
    [min_v = 2], [max_v = 3], [lower_std_bound = 10],
    [upper_std_bound = 0] one application gives [(2, 10)] and a second
    one [(0, 10)]. *)
Lemma get_threshold_range_idempotent_counterexample :
  get_threshold_range 2 3 10 0 = (2%Q, 10%Q) /\
  get_threshold_range 2 10 10 0 = (0%Q, 10%Q) /\
  ~ ((get_threshold_range
        (get_threshold_range 2 3 10 0).1 (get_threshold_range 2 3 10 0).2
        10 0).1
     == (get_threshold_range 2 3 10 0).1)%Q.
Proof.
  split; [reflexivity|]. split; [reflexivity|].
  intros H. vm_compute in H. discriminate H.
Qed.

(** C1, as the code has it.  With observed bounds [(0, 100)] and the
    saved configuration [{min: 0.1, max: 0.9}] both saved values lie
    inside the bounds, so the saved-threshold guard returns them
    unchanged, [(0.1, 0.9)], whatever the method.  With method
    ["percentage"] the formula [lower = min_v + min * (max_v - min_v)],
    [upper = min_v + max * (max_v - min_v)], each operation rounded as
    Python rounds it (and none of them leaving the range of doubles), is
    the result whenever that guard does not apply and the two computed
    values are in order and within [[min_v, max_v]]. *)
Theorem get_plot_defaults_percentage
    (h : Host) (ps : PanelState) (field field_name : string)
    (cfg : IssueConfig) (min_v max_v lo up : Q) :
  issue_config ps !! field = Some cfg ->
  FIELD_NAME h !! field = Some field_name ->
  dataset_bounds h field_name = Ok (min_v, max_v) ->
  cfg_min cfg = Some lo -> cfg_max cfg = Some up ->
  (min_v = 0%Q -> max_v = 100%Q -> lo = float_0_1 -> up = float_0_9 ->
   forall method,
     get_plot_defaults h ps field method
       = Ok (Some (float_0_1, float_0_9))) /\
  (saved_in_bounds (Some lo) (Some up) min_v max_v = None ->
   percentage_in_range min_v max_v lo ->
   percentage_in_range min_v max_v up ->
   (fadd min_v (fmul lo (fsub max_v min_v)) <= max_v)%Q ->
   (min_v <= fadd min_v (fmul up (fsub max_v min_v)))%Q ->
   (fadd min_v (fmul lo (fsub max_v min_v))
    <= fadd min_v (fmul up (fsub max_v min_v)))%Q ->
   get_plot_defaults h ps field "percentage"
     = Ok (Some (fadd min_v (fmul lo (fsub max_v min_v)),
                 fadd min_v (fmul up (fsub max_v min_v))))).
Proof.
  intros Hc Hf Hb Hlo Hup. split.
  - intros -> -> -> -> method.
    rewrite (get_plot_defaults_resolve _ _ _ _ _ _ _ _ Hc Hf Hb).
    unfold resolve_plot_defaults. rewrite Hlo, Hup. reflexivity.
  - intros.
    rewrite (get_plot_defaults_resolve _ _ _ _ _ _ _ _ Hc Hf Hb).
    by apply resolve_percentage_formula.
Qed.

Lemma get_plot_defaults_percentage_witness :
  get_plot_defaults (example_host (0, 100)%Q (Ok None) 0)
    (example_panel example_config "" "") "brightness" "threshold"
    = Ok (Some (float_0_1, float_0_9)) /\
  get_plot_defaults (example_host (10, 110)%Q (Ok None) 0)
    (example_panel example_config "" "") "brightness" "percentage"
    = Ok (Some (20%Q, 100%Q)).
Proof.
  split.
  - apply (proj1 (get_plot_defaults_percentage
                    (example_host (0, 100)%Q (Ok None) 0)
                    (example_panel example_config "" "")
                    "brightness" "brightness" example_config
                    0 100 float_0_1 float_0_9
                    eq_refl eq_refl eq_refl eq_refl eq_refl));
      reflexivity.
  - rewrite (proj2 (get_plot_defaults_percentage
                      (example_host (10, 110)%Q (Ok None) 0)
                      (example_panel example_config "" "")
                      "brightness" "brightness" example_config
                      10 110 float_0_1 float_0_9
                      eq_refl eq_refl eq_refl eq_refl eq_refl));
      repeat split; vm_compute; first [reflexivity | discriminate].
Defined.

(** C1 as stated fails: at bounds [(0, 100)] with the saved
    configuration [{min: 0.1, max: 0.9}] and method ["percentage"] the
    result is [(0.1, 0.9)], whose ends are not [10] and [90]. *)
Lemma get_plot_defaults_percentage_counterexample :
  get_plot_defaults (example_host (0, 100)%Q (Ok None) 0)
    (example_panel example_config "" "") "brightness" "percentage"
    = Ok (Some (float_0_1, float_0_9)) /\
  ~ (float_0_1 == 10)%Q /\ ~ (float_0_9 == 90)%Q.
Proof.
  split; [reflexivity|].
  split; intros H; vm_compute in H; discriminate H.
Qed.

(** C9.  With method ["percentage"], a saved [min] or [max] that is
    [None] (or absent) makes [get_plot_defaults] raise [TypeError]: the
    saved-threshold guard is skipped and [None] is multiplied by the
    value range.  When both saved values are numbers the call returns a
    pair. *)
Theorem get_plot_defaults_percentage_None
    (h : Host) (ps : PanelState) (field field_name : string)
    (cfg : IssueConfig) (min_v max_v : Q) :
  issue_config ps !! field = Some cfg ->
  FIELD_NAME h !! field = Some field_name ->
  dataset_bounds h field_name = Ok (min_v, max_v) ->
  (cfg_min cfg = None \/ cfg_max cfg = None ->
   saved_in_bounds (cfg_min cfg) (cfg_max cfg) min_v max_v = None /\
   get_plot_defaults h ps field "percentage" = Raise TypeError) /\
  (is_Some (cfg_min cfg) -> is_Some (cfg_max cfg) ->
   exists r, get_plot_defaults h ps field "percentage" = Ok (Some r)).
Proof.
  intros Hc Hf Hb.
  rewrite (get_plot_defaults_resolve _ _ _ _ _ _ _ _ Hc Hf Hb). split.
  - intros H. split; [|by apply resolve_percentage_None].
    destruct H as [-> | ->];
      [apply saved_in_bounds_None_l|apply saved_in_bounds_None_r].
  - intros [lo Hlo] [up Hup]. by eapply resolve_percentage_Some.
Qed.

Lemma get_plot_defaults_percentage_None_witness :
  get_plot_defaults (example_host (0, 100)%Q (Ok None) 0)
    (example_panel {| cfg_min := None; cfg_max := Some (9 # 10);
                      detect_method := "percentage" |} "" "")
    "brightness" "percentage" = Raise TypeError.
Proof.
  apply (proj1 (get_plot_defaults_percentage_None
                  (example_host (0, 100)%Q (Ok None) 0)
                  (example_panel {| cfg_min := None; cfg_max := Some (9 # 10);
                                    detect_method := "percentage" |} "" "")
                  "brightness" "brightness" _ 0 100
                  eq_refl eq_refl eq_refl)).
  left. reflexivity.
Defined.



(** ** The computing-status machine *)

Ltac munfold :=
  unfold unpack_pair in *;
  unfold mbind, M_bind, res_bind, mret, M_ret, res_ret, lift, raise, store_get, store_set,
    get_panel, modify_panel, utcnow, not_None, dict_getitem in *.

Lemma change_computing_status_run it ic et rid ds st w c :
  store w = Some c ->
  change_computing_status it ic et rid ds st w =
    (Ok tt,
     {| store :=
          Some (match st with
                | Some s =>
                    set_c_status (<[it := s]> (c_status c))
                      (set_c_computing
                         (<[it := computing_entry ic et rid ds]>
                            (computing (panel w))) c)
                | None =>
                    set_c_computing
                      (<[it := computing_entry ic et rid ds]>
                         (computing (panel w))) c
                end);
        panel := set_computing
                   (<[it := computing_entry ic et rid ds]> (computing (panel w)))
                   (panel w);
        clock_reads := clock_reads w |}).
Proof.
  intros Hs. unfold change_computing_status. munfold. rewrite Hs.
  destruct st; reflexivity.
Qed.

Lemma change_computing_status_None it ic et rid ds st w :
  store w = None ->
  (change_computing_status it ic et rid ds st w).1 = Raise TypeError.
Proof.
  intros Hs. unfold change_computing_status. munfold. rewrite Hs. reflexivity.
Qed.

(** C5.  For an issue type whose computing record has an execution type
    other than ["delegate_execution"] (or has no record) and whose status
    is [COMPUTING], a run of [check_computing_status] at a time strictly
    later than [last_scan.timestamp + 10 minutes] returns without raising,
    sets [is_computing] to [false] (in the store and in the panel state)
    and leaves the stored status at [NOT_COMPUTED]. *)
Theorem check_computing_status_immediate_timeout
    (h : Host) (params : CtxParams) (w : World) (issue_type : string)
    (content : Content) (last_scan : gmap string LastScan)
    (entry : LastScan) (t : Z) :
  p_issue_type params = Some issue_type ->
  store w = Some content ->
  execution_type <$> (c_computing content !! issue_type)
    <> Some "delegate_execution" ->
  c_status content !! issue_type = Some COMPUTING ->
  c_last_scan content = Some last_scan ->
  last_scan !! issue_type = Some entry ->
  timestamp entry = Some t ->
  (t + timedelta_minutes 10 < utc_clock h (clock_reads w))%Z ->
  let r := check_computing_status h params w in
  r.1 = Ok tt /\
  persisted_status r.2 issue_type = Some NOT_COMPUTED /\
  is_computing <$> persisted_computing r.2 issue_type = Some false /\
  is_computing <$> (computing (panel r.2) !! issue_type) = Some false.
Proof.
  intros Hp Hs Hex Hst Hls Hle Hts Hlt r. subst r.
  unfold check_computing_status. munfold.
  rewrite Hp, Hs. cbv beta iota.
  rewrite bool_decide_eq_false_2 by done. cbn [negb].
  rewrite Hls. cbv beta iota. rewrite Hle. cbv beta iota. rewrite Hts.
  cbv beta iota. cbn [clock_reads].
  destruct (Z.ltb_spec (t + timedelta_minutes 10) (utc_clock h (clock_reads w)));
    [|lia].
  erewrite change_computing_status_run by (cbn; exact Hs).
  cbn [fst snd]. split; [done|].
  unfold persisted_status, persisted_computing. cbn.
  rewrite !lookup_insert_eq. done.
Qed.

Lemma check_computing_status_immediate_timeout_witness :
  (check_computing_status
     (example_host (0, 100)%Q (Ok None) 3600000000) example_params
     (example_world COMPUTING "execute" "" (Some 0%Z))).1 = Ok tt /\
  persisted_status
    (check_computing_status
       (example_host (0, 100)%Q (Ok None) 3600000000) example_params
       (example_world COMPUTING "execute" "" (Some 0%Z))).2
    "brightness" = Some NOT_COMPUTED.
Proof.
  destruct (check_computing_status_immediate_timeout
              (example_host (0, 100)%Q (Ok None) 3600000000) example_params
              (example_world COMPUTING "execute" "" (Some 0%Z))
              "brightness"
              (example_content COMPUTING "execute" "" (Some 0%Z))
              {["brightness" := {| timestamp := Some 0%Z;
                                   dataset_size := None |}]}
              {| timestamp := Some 0%Z; dataset_size := None |}
              0%Z eq_refl eq_refl)
    as (H1 & H2 & _); try reflexivity.
  - discriminate.
  - split; [exact H1|exact H2].
Defined.

Lemma bind_Ok {A B} (m : M A) (k : A -> M B) w b w' :
  (m ≫= k) w = (Ok b, w') ->
  exists a w0, m w = (Ok a, w0) /\ k a w0 = (Ok b, w').
Proof.
  unfold mbind, M_bind. destruct (m w) as [[a|e] w0]; [eauto|discriminate].
Qed.

(** Peel the first statement off a successful run. *)
Ltac bind_last H :=
  cbv zeta in H;
  lazymatch type of H with
  | @mbind _ _ _ _ ?k ?m ?w = (Ok _, _) =>
      apply (bind_Ok m k) in H as (? & ? & _ & H)
  end.

Lemma change_computing_status_status it ic et rid ds s w w' :
  change_computing_status it ic et rid ds (Some s) w = (Ok tt, w') ->
  persisted_status w' it = Some s.
Proof.
  destruct (store w) as [c|] eqn:Hs.
  - rewrite (change_computing_status_run _ _ _ _ _ _ _ _ Hs).
    intros [= <-]. unfold persisted_status. cbn. apply lookup_insert_eq.
  - pose proof (change_computing_status_None it ic et rid ds (Some s) w Hs) as H.
    intros Heq. rewrite Heq in H. discriminate H.
Qed.

Lemma process_issue_computation_recompute_status h it w w' :
  _process_issue_computation_recompute h it w = (Ok tt, w') ->
  persisted_status w' it = Some NEEDS_REVIEW.
Proof.
  intros H. unfold _process_issue_computation_recompute in H.
  repeat bind_last H.
  by apply change_computing_status_status in H.
Qed.

Lemma change_computing_status_result it ic et rid ds st w :
  (change_computing_status it ic et rid ds st w).1 = Ok tt \/
  (change_computing_status it ic et rid ds st w).1 = Raise TypeError.
Proof.
  destruct (store w) as [c|] eqn:Hs.
  - left. by rewrite (change_computing_status_run _ _ _ _ _ _ _ _ Hs).
  - right. by apply change_computing_status_None.
Qed.

Ltac ccs_tail :=
  lazymatch goal with
  | |- context [change_computing_status ?it ?ic ?et ?rid ?ds ?st ?w] =>
      destruct (change_computing_status_result it ic et rid ds st w) as [E|E];
      rewrite E; done
  end.

Lemma process_issue_computation_recompute_scan h it w :
  match (_process_issue_computation_recompute h it w).1 with
  | Ok _ => scan_queries h (panel w) it = Ok tt
  | Raise ValueError => scan_queries h (panel w) it = Raise ValueError
  | Raise _ => True
  end.
Proof.
  unfold _process_issue_computation_recompute, scan_queries.
  munfold. cbv beta iota zeta.
  destruct (store w) as [c|]; cycle 1.
  { destruct (String.eqb it "exact_duplicates").
    - by destruct (_process_exact_duplicates (hash_view h)) as [[? ?] ?].
    - destruct (FIELD_NAME h !! it) as [f|]; [|done]. cbv beta iota.
      by destruct (dataset_histogram_values h f) as [[? ?]|[]]. }
  cbv beta iota.
  destruct (String.eqb it "exact_duplicates").
  - destruct (_process_exact_duplicates (hash_view h)) as [[? ?] ?].
    cbv beta iota.
    destruct (c_results c !! it); [|done]. cbv beta iota.
    destruct (dataset_count h) as [?|[]]; try done. cbv beta iota.
    cbn [store panel clock_reads].
    destruct (new_samples (panel w) !! it) as [[[? ?] ?]|]; [|done].
    cbv beta iota. destruct (_ && _); ccs_tail.
  - destruct (FIELD_NAME h !! it) as [f|]; [|done]. cbv beta iota.
    destruct (dataset_histogram_values h f) as [[? ?]|[]]; try done.
    cbv beta iota. destruct (issue_config (panel w) !! it) as [cfg|]; [|done].
    cbv beta iota.
    destruct (get_plot_defaults h (panel w) it (detect_method cfg)) as [[[lo up]|]|[]];
      try done.
    cbv beta iota.
    destruct (dataset_match_count h f (Some lo) (Some up)) as [?|[]]; try done.
    cbv beta iota.
    destruct (dataset_count h) as [?|[]]; try done. cbv beta iota.
    cbn [store panel clock_reads].
    destruct (new_samples (panel w) !! it) as [[[? ?] ?]|]; [|done].
    cbv beta iota. destruct (_ && _); ccs_tail.
Qed.

Lemma bind_inv {A B} (m : M A) (k : A -> M B) w r w' :
  (m ≫= k) w = (r, w') ->
  (exists a w0, m w = (Ok a, w0) /\ k a w0 = (r, w')) \/
  (exists e, m w = (Raise e, w') /\ r = Raise e).
Proof.
  unfold mbind, M_bind. destruct (m w) as [[a|e] w0].
  - left. eauto.
  - intros [= <- <-]. right. eauto.
Qed.

Lemma get_plot_defaults_ext h ps ps' field method :
  issue_config ps = issue_config ps' ->
  get_plot_defaults h ps field method = get_plot_defaults h ps' field method.
Proof. intros H. unfold get_plot_defaults. by rewrite H. Qed.

Lemma scan_queries_ext h ps ps' it :
  issue_config ps = issue_config ps' ->
  scan_queries h ps it = scan_queries h ps' it.
Proof.
  intros H. unfold scan_queries. rewrite H.
  destruct (String.eqb it "exact_duplicates"); [done|].
  destruct (dict_getitem (FIELD_NAME h) it); [|done]. cbn.
  destruct (dataset_histogram_values h a); [|done]. cbn.
  destruct (dict_getitem (issue_config ps') it); [|done]. cbn.
  by rewrite (get_plot_defaults_ext h ps ps').
Qed.

(** A successful scan of a histogram issue type has resolved the plot
    defaults. *)
Lemma scan_queries_plot_defaults h ps it :
  scan_queries h ps it = Ok tt -> it <> "exact_duplicates" ->
  exists cfg r,
    issue_config ps !! it = Some cfg /\
    get_plot_defaults h ps it (detect_method cfg) = Ok r.
Proof.
  unfold scan_queries. intros H Hne.
  destruct (String.eqb_spec it "exact_duplicates"); [done|].
  munfold.
  destruct (FIELD_NAME h !! it); [|done].
  destruct (dataset_histogram_values h s); [|done].
  destruct (issue_config ps !! it) as [cfg|]; [|done].
  destruct (get_plot_defaults h ps it (detect_method cfg)) as [r|] eqn:E;
    [|done].
  eauto.
Qed.

Lemma change_computing_status_panel it ic et rid ds st w :
  issue_config (panel (change_computing_status it ic et rid ds st w).2)
    = issue_config (panel w) /\
  state_issue_type (panel (change_computing_status it ic et rid ds st w).2)
    = state_issue_type (panel w).
Proof.
  unfold change_computing_status. munfold.
  destruct (store w); destruct st; done.
Qed.

Lemma process_issue_computation_recompute_panel h it w :
  issue_config (panel (_process_issue_computation_recompute h it w).2)
    = issue_config (panel w) /\
  state_issue_type (panel (_process_issue_computation_recompute h it w).2)
    = state_issue_type (panel w).
Proof.
  unfold _process_issue_computation_recompute.
  munfold. cbv beta iota zeta.
  destruct (store w) as [c|]; cycle 1.
  { destruct (String.eqb it "exact_duplicates").
    - by destruct (_process_exact_duplicates (hash_view h)) as [[? ?] ?].
    - destruct (FIELD_NAME h !! it) as [f|]; [|done]. cbv beta iota.
      by destruct (dataset_histogram_values h f) as [[? ?]|?]. }
  cbv beta iota.
  destruct (String.eqb it "exact_duplicates").
  - destruct (_process_exact_duplicates (hash_view h)) as [[? ?] ?].
    cbv beta iota.
    destruct (c_results c !! it); [|done]. cbv beta iota.
    destruct (dataset_count h) as [?|?]; [|done]. cbv beta iota.
    cbn [store panel clock_reads].
    destruct (new_samples (panel w) !! it) as [[[? ?] ?]|]; [|done].
    cbv beta iota. destruct (_ && _);
      match goal with |- context [change_computing_status ?a ?b ?c ?d ?e ?f ?g] =>
        destruct (change_computing_status_panel a b c d e f g) as [-> ->] end;
      done.
  - destruct (FIELD_NAME h !! it) as [f|]; [|done]. cbv beta iota.
    destruct (dataset_histogram_values h f) as [[? ?]|?]; [|done].
    cbv beta iota. destruct (issue_config (panel w) !! it) as [cfg|]; [|done].
    cbv beta iota.
    destruct (get_plot_defaults h (panel w) it (detect_method cfg)) as [[[lo up]|]|?];
      [|done|done].
    cbv beta iota.
    destruct (dataset_match_count h f (Some lo) (Some up)) as [?|?]; [|done].
    cbv beta iota.
    destruct (dataset_count h) as [?|?]; [|done]. cbv beta iota.
    cbn [store panel clock_reads].
    destruct (new_samples (panel w) !! it) as [[[? ?] ?]|]; [|done].
    cbv beta iota. destruct (_ && _);
      match goal with |- context [change_computing_status ?a ?b ?c ?d ?e ?f ?g] =>
        destruct (change_computing_status_panel a b c d e f g) as [-> ->] end;
      done.
Qed.

Lemma set_hist_defaults_store h w :
  store (set_hist_defaults h w).2 = store w.
Proof.
  unfold set_hist_defaults. munfold.
  destruct (state_issue_type (panel w)) as [f|]; [|done]. cbv beta iota.
  destruct (issue_config (panel w) !! f) as [cfg|]; [|done]. cbv beta iota.
  destruct (hist_lower_thresh (panel w)), (hist_upper_thresh (panel w));
    try done;
    destruct (get_plot_defaults h (panel w) f (detect_method cfg)) as [[[? ?]|]|?];
    done.
Qed.

Lemma set_hist_defaults_ValueError h w :
  (set_hist_defaults h w).1 = Raise ValueError ->
  exists f cfg,
    state_issue_type (panel w) = Some f /\
    issue_config (panel w) !! f = Some cfg /\
    get_plot_defaults h (panel w) f (detect_method cfg) = Raise ValueError.
Proof.
  unfold set_hist_defaults. munfold.
  destruct (state_issue_type (panel w)) as [f|] eqn:Hf; [|by cbn]. cbv beta iota.
  destruct (issue_config (panel w) !! f) as [cfg|] eqn:Hc; [|by cbn]. cbv beta iota.
  intros H. exists f, cfg. split; [done|]. split; [done|].
  destruct (hist_lower_thresh (panel w)), (hist_upper_thresh (panel w));
    try done;
    destruct (get_plot_defaults h (panel w) f (detect_method cfg)) as [[[? ?]|]|?];
    try done; cbn in H; congruence.
Qed.

Lemma change_view_status h it w w' s :
  s <> NOT_COMPUTED ->
  persisted_status w it = Some s ->
  change_view h it w = (Ok tt, w') ->
  persisted_status w' it = Some s.
Proof.
  intros Hs Hst. unfold change_view. munfold.
  unfold persisted_status in Hst.
  destruct (FIELD_NAME h !! it) as [f|]; [|done]. cbv beta iota.
  destruct (store w) as [c|] eqn:Hsw; [|done]. cbn in Hst. cbv beta iota.
  rewrite Hst. cbv beta iota.
  rewrite (bool_decide_eq_false_2 (s = STATUS 0)) by exact Hs.
  repeat case_match; intros [= <-]; unfold persisted_status; cbn;
    rewrite ?Hsw; done.
Qed.

Lemma get_issue_status_run it w :
  _get_issue_status it w
    = (Ok (default (STATUS 0) (persisted_status w it)), w).
Proof.
  unfold _get_issue_status, persisted_status. munfold.
  by destruct (store w).
Qed.

(** The statements of [navigate_to_screen] inside [try:], when the world
    already holds a successful scan of [it] in review. *)
Lemma navigate_try_body h it (recompute : bool) w r w' :
  persisted_status w it = Some NEEDS_REVIEW ->
  scan_queries h (panel w) it = Ok tt ->
  state_issue_type (panel w) = Some it ->
  ((_ ← (if recompute
         then _process_issue_computation_recompute h it
         else mret tt);
    _ ← (if bool_decide
              (it ∈ ["brightness"; "blurriness"; "aspect_ratio";
                     "entropy"; "near_duplicates"])
         then set_hist_defaults h
         else mret tt);
    st ← _get_issue_status it;
    _ ← (if bool_decide (st <> STATUS 3)
         then change_computing_status it false "" "" ""
                (Some (STATUS 2))
         else mret tt);
    mret true) : M bool) w = (r, w') ->
  r <> Raise ValueError /\
  (forall b, r = Ok b -> b = true /\ persisted_status w' it = Some NEEDS_REVIEW).
Proof.
  intros Hst Hscan Hit H.
  apply bind_inv in H as [(? & w1 & H1 & H)|(e & H1 & ->)]; cycle 1.
  { (* the scan raised *)
    split; [|done]. intros [= ->].
    destruct recompute; [|discriminate H1].
    pose proof (process_issue_computation_recompute_scan h it w) as Hs.
    rewrite H1 in Hs. cbn in Hs. congruence. }
  assert (persisted_status w1 it = Some NEEDS_REVIEW /\
          issue_config (panel w1) = issue_config (panel w) /\
          state_issue_type (panel w1) = Some it) as (Hst1 & Hcfg1 & Hit1).
  { destruct recompute.
    - destruct x. split; [by eapply process_issue_computation_recompute_status|].
      destruct (process_issue_computation_recompute_panel h it w) as [Ha Hb].
      rewrite H1 in Ha, Hb. cbn in Ha, Hb. split; congruence.
    - injection H1 as <- <-. done. }
  apply bind_inv in H as [(? & w2 & H2 & H)|(e & H2 & ->)]; cycle 1.
  { (* the histogram defaults raised *)
    split; [|done]. intros [= ->].
    case_bool_decide as Hin; [|discriminate H2].
    pose proof (set_hist_defaults_ValueError h w1) as Hv.
    rewrite H2 in Hv. destruct (Hv eq_refl) as (f & cfg & Hf & Hc & Hg).
    rewrite Hit1 in Hf. injection Hf as <-.
    destruct (scan_queries_plot_defaults h (panel w) it Hscan)
      as (cfg' & r' & Hc' & Hg').
    { intros ->. revert Hin. rewrite !elem_of_cons, elem_of_nil. naive_solver. }
    rewrite Hcfg1, Hc' in Hc. injection Hc as <-.
    rewrite (get_plot_defaults_ext h (panel w1) (panel w)) in Hg by done.
    congruence. }
  assert (persisted_status w2 it = Some NEEDS_REVIEW) as Hst2.
  { case_bool_decide.
    - pose proof (set_hist_defaults_store h w1) as Hs.
      rewrite H2 in Hs. unfold persisted_status in *. cbn in Hs. by rewrite Hs.
    - injection H2 as <- <-. done. }
  apply bind_inv in H as [(st & w2' & Hg & H)|(e & Hg & _)];
    rewrite get_issue_status_run, Hst2 in Hg; [|discriminate Hg].
  injection Hg as <- <-. cbn [default] in H.
  rewrite bool_decide_eq_true_2 in H by done.
  apply bind_inv in H as [(? & w3 & H3 & H)|(e & H3 & ->)]; cycle 1.
  { split; [|done]. intros [= ->].
    destruct (change_computing_status_result it false "" "" ""
                (Some (STATUS 2)) w2) as [E|E];
      rewrite H3 in E; discriminate E. }
  injection H as <- <-. split; [done|]. intros b [= <-]. split; [done|].
  destruct x1. by apply change_computing_status_status in H3.
Qed.

Lemma navigate_to_screen_status h params it next_screen recompute w w' :
  default it (p_issue_type params) = it ->
  persisted_status w it = Some NEEDS_REVIEW ->
  scan_queries h (panel w) it = Ok tt ->
  navigate_to_screen h params it next_screen recompute w = (Ok tt, w') ->
  persisted_status w' it = Some NEEDS_REVIEW.
Proof.
  intros Hit Hst Hscan H. unfold navigate_to_screen in H. cbv zeta in H.
  rewrite Hit in H.
  set (ns := default next_screen (p_next_screen params)) in *.
  set (rc := default recompute (p_recompute params)) in *.
  apply bind_inv in H as [(? & w1 & H1 & H)|(e & _ & [=])].
  injection H1 as _ <-.
  apply bind_inv in H as [(? & w2 & H2 & H)|(e & _ & [=])].
  assert (store w2 = store w) as Hstore2.
  { destruct (String.eqb ns "home"); injection H2 as _ <-; done. }
  destruct (String.eqb_spec ns "analysis") as [Hns|Hns]; cycle 1.
  { injection H as <-. unfold persisted_status in *. by rewrite Hstore2. }
  assert (String.eqb ns "home" = false) as Hhome by (by rewrite Hns).
  rewrite Hhome in H2. injection H2 as _ <-.
  apply bind_inv in H as [(continue & w3 & H3 & H)|(e & _ & [=])].
  unfold try_except_ValueError in H3.
  match type of H3 with
  | context [match ?b ?w with _ => _ end] =>
      destruct (b w) as [rb wb] eqn:Hb
  end.
  apply navigate_try_body in Hb as [Hnv Hok]; [|done..].
  destruct rb as [b|e].
  - injection H3 as <- <-. destruct (Hok b eq_refl) as [-> Hst3].
    by eapply (change_view_status h it wb w' NEEDS_REVIEW).
  - destruct e; try discriminate H3. done.
Qed.

Lemma process_issue_computation_status h params it w w' :
  default it (p_issue_type params) = it ->
  _process_issue_computation h params it false w = (Ok tt, w') ->
  persisted_status w' it = Some NEEDS_REVIEW.
Proof.
  intros Hit H. unfold _process_issue_computation in H.
  apply bind_inv in H as [([] & w1 & H1 & H)|(e & _ & [=])].
  cbn [negb] in H.
  pose proof (process_issue_computation_recompute_scan h it w) as Hscan.
  destruct (process_issue_computation_recompute_panel h it w) as [Hcfg _].
  rewrite H1 in Hscan, Hcfg. cbn in Hscan, Hcfg.
  eapply navigate_to_screen_status; [done| | |exact H].
  - by eapply process_issue_computation_recompute_status.
  - by rewrite (scan_queries_ext h (panel w1) (panel w)).
Qed.

(** C6.  When [check_computing_status] polls a delegated run in state
    ["failed"] and the local recomputation it then starts,
    [_process_issue_computation], returns without raising, the handler
    returns normally and the status left in the store for that issue type
    is [NEEDS_REVIEW], not [NOT_COMPUTED].  (The dataset answers the same
    query the same way while the handler runs.) *)
Theorem check_computing_status_failed_then_recomputed
    (h : Host) (params : CtxParams) (w : World) (issue_type : string)
    (content : Content) :
  p_issue_type params = Some issue_type ->
  store w = Some content ->
  execution_type <$> (c_computing content !! issue_type)
    = Some "delegate_execution" ->
  dos_get h (p_run_id params) = Ok (Some "failed") ->
  (_process_issue_computation h params issue_type false
     (change_computing_status issue_type false "" "" ""
        (Some (STATUS 0)) w).2).1 = Ok tt ->
  (check_computing_status h params w).1 = Ok tt /\
  persisted_status (check_computing_status h params w).2 issue_type
    = Some NEEDS_REVIEW.
Proof.
  intros Hp Hs Hex Hdos Hok.
  destruct (check_computing_status h params w) as [r w'] eqn:E.
  unfold check_computing_status in E.
  unfold mbind at 1 2 3, M_bind at 1 2 3, lift, store_get, not_None in E.
  rewrite Hp, Hs in E. cbv beta iota in E.
  rewrite (bool_decide_eq_true_2 _ Hex) in E. cbn [negb] in E.
  rewrite Hdos in E. rewrite bool_decide_eq_true_2 in E by done.
  unfold mbind, M_bind, try_except in E.
  destruct (change_computing_status issue_type false "" "" ""
              (Some (STATUS 0)) w) as [r1 w1] eqn:H1.
  rewrite (change_computing_status_run _ _ _ _ _ _ _ _ Hs) in H1.
  injection H1 as <- H1. cbn [snd] in Hok.
  destruct (_process_issue_computation h params issue_type false w1)
    as [r2 w2] eqn:H2.
  cbn [fst] in Hok. subst r2. injection E as <- <-.
  cbn [fst snd]. split; [done|].
  eapply process_issue_computation_status; [|exact H2]. by rewrite Hp.
Qed.

Lemma check_computing_status_failed_then_recomputed_witness :
  persisted_status
    (check_computing_status
       (example_host (0, 100)%Q (Ok (Some "failed")) 3600000000)
       example_params
       (example_world COMPUTING "delegate_execution" "running" (Some 0%Z))).2
    "brightness" = Some NEEDS_REVIEW.
Proof.
  apply (check_computing_status_failed_then_recomputed
           (example_host (0, 100)%Q (Ok (Some "failed")) 3600000000)
           example_params
           (example_world COMPUTING "delegate_execution" "running" (Some 0%Z))
           "brightness" _ eq_refl eq_refl).
  - reflexivity.
  - reflexivity.
  - vm_compute. reflexivity.
Defined.

(** C4, as the code has it.  A delegated run in status [COMPUTING] has no
    timeout: the clock is not read.  When the poll reports a state other
    than ["failed"] and ["completed"] the status stays [COMPUTING] and
    [is_computing] is [true], whatever the time since the scan started;
    when the poll reports no state nothing changes; the status is reset
    to [NOT_COMPUTED] when polling the run raises. *)
Theorem check_computing_status_delegated_poll
    (h : Host) (params : CtxParams) (w : World) (issue_type : string)
    (content : Content) :
  p_issue_type params = Some issue_type ->
  store w = Some content ->
  execution_type <$> (c_computing content !! issue_type)
    = Some "delegate_execution" ->
  c_status content !! issue_type = Some COMPUTING ->
  (forall state,
     dos_get h (p_run_id params) = Ok (Some state) ->
     state <> "failed" -> state <> "completed" ->
     (check_computing_status h params w).1 = Ok tt /\
     persisted_status (check_computing_status h params w).2 issue_type
       = Some COMPUTING /\
     is_computing <$>
       persisted_computing (check_computing_status h params w).2 issue_type
       = Some true) /\
  (dos_get h (p_run_id params) = Ok None ->
   check_computing_status h params w = (Ok tt, w)) /\
  (forall e,
     dos_get h (p_run_id params) = Raise e ->
     (check_computing_status h params w).1 = Ok tt /\
     persisted_status (check_computing_status h params w).2 issue_type
       = Some NOT_COMPUTED).
Proof.
  intros Hp Hs Hex Hst.
  destruct (check_computing_status h params w) as [r w'] eqn:E.
  unfold check_computing_status in E.
  unfold mbind at 1 2 3, M_bind at 1 2 3, lift, store_get, not_None in E.
  rewrite Hp, Hs in E. cbv beta iota in E.
  rewrite (bool_decide_eq_true_2 _ Hex) in E. cbn [negb] in E.
  split; [|split].
  - intros state Hdos Hf Hc. rewrite Hdos in E.
    rewrite !bool_decide_eq_false_2 in E by congruence.
    rewrite (change_computing_status_run _ _ _ _ _ _ _ _ Hs) in E.
    injection E as <- <-. cbn [fst snd]. split; [done|].
    unfold persisted_status, persisted_computing. cbn.
    rewrite lookup_insert_eq. done.
  - intros Hdos. rewrite Hdos in E.
    rewrite !bool_decide_eq_false_2 in E by congruence. by rewrite <- E.
  - intros e Hdos. rewrite Hdos in E.
    rewrite (change_computing_status_run _ _ _ _ _ _ _ _ Hs) in E.
    injection E as <- <-. cbn [fst snd]. split; [done|].
    unfold persisted_status. cbn. apply lookup_insert_eq.
Qed.

Lemma check_computing_status_delegated_poll_witness :
  persisted_status
    (check_computing_status
       (example_host (0, 100)%Q (Ok (Some "running")) 3600000000)
       example_params
       (example_world COMPUTING "delegate_execution" "running" (Some 0%Z))).2
    "brightness" = Some COMPUTING.
Proof.
  refine (proj1 (proj2 (proj1
    (check_computing_status_delegated_poll
       (example_host (0, 100)%Q (Ok (Some "running")) 3600000000)
       example_params
       (example_world COMPUTING "delegate_execution" "running" (Some 0%Z))
       "brightness" _ eq_refl eq_refl eq_refl eq_refl)
    "running" eq_refl _ _))); discriminate.
Defined.

(** C4 as stated fails: a delegated run in status [COMPUTING], started at
    time [0] and polled one hour later with the run still ["running"] (the
    state the store already shows), keeps the status [COMPUTING]. *)
Lemma check_computing_status_delegated_timeout_counterexample :
  execution_type <$>
    persisted_computing
      (example_world COMPUTING "delegate_execution" "running" (Some 0%Z))
      "brightness" = Some "delegate_execution" /\
  persisted_status
    (example_world COMPUTING "delegate_execution" "running" (Some 0%Z))
    "brightness" = Some COMPUTING /\
  (0 + timedelta_minutes 10
   < utc_clock (example_host (0, 100)%Q (Ok (Some "running")) 3600000000) 0)%Z /\
  (check_computing_status
     (example_host (0, 100)%Q (Ok (Some "running")) 3600000000)
     example_params
     (example_world COMPUTING "delegate_execution" "running" (Some 0%Z))).1
    = Ok tt /\
  persisted_status
    (check_computing_status
       (example_host (0, 100)%Q (Ok (Some "running")) 3600000000)
       example_params
       (example_world COMPUTING "delegate_execution" "running" (Some 0%Z))).2
    "brightness" = Some COMPUTING.
Proof. vm_compute. repeat split; congruence. Qed.

(** ** Further properties of the threshold functions *)

(** X1.  A range that lies inside the bounds is returned unchanged. *)
Theorem get_threshold_range_inside_unchanged
    (min_v max_v lower_std_bound upper_std_bound : Q) :
  (lower_std_bound <= min_v <= upper_std_bound)%Q ->
  (lower_std_bound <= max_v <= upper_std_bound)%Q ->
  get_threshold_range min_v max_v lower_std_bound upper_std_bound
    = (min_v, max_v).
Proof. intros H1 H2. by apply get_threshold_range_inside. Qed.

Lemma get_threshold_range_inside_unchanged_witness :
  get_threshold_range 3 7 2 10 = (3%Q, 7%Q).
Proof.
  apply (get_threshold_range_inside_unchanged 3 7 2 10); split; lra.
Defined.

(** X2.  When both ends are out of bounds the function compares the two
    overshoots [lower_std_bound - min_v] and [max_v - upper_std_bound] as
    Python computes them, each rounded to a float (neither leaving the
    range of doubles): it returns the lower
    segment [(min_v, lower_std_bound)] if the first float is strictly
    greater than the second, and the upper segment
    [(upper_std_bound, max_v)] otherwise, a tie of the two floats
    included. *)
Theorem get_threshold_range_both_sides_out
    (min_v max_v lower_std_bound upper_std_bound : Q) :
  (min_v < lower_std_bound)%Q -> (upper_std_bound < max_v)%Q ->
  in_double_range (lower_std_bound - min_v) ->
  in_double_range (max_v - upper_std_bound) ->
  ((fsub max_v upper_std_bound < fsub lower_std_bound min_v)%Q ->
   get_threshold_range min_v max_v lower_std_bound upper_std_bound
     = (min_v, lower_std_bound)) /\
  ((fsub lower_std_bound min_v <= fsub max_v upper_std_bound)%Q ->
   get_threshold_range min_v max_v lower_std_bound upper_std_bound
     = (upper_std_bound, max_v)).
Proof.
  intros H1 H2 _ _. split; intros H3.
  - by apply get_threshold_range_both_lower.
  - by apply get_threshold_range_both_upper.
Qed.

(** In the second example [min_v] is [- 2^-60]: the overshoot
    [1 + 2^-60] rounds to the float [1.0], a tie with [3 - 2]. *)
Lemma get_threshold_range_both_sides_out_witness :
  get_threshold_range (-3) 12 2 10 = ((-3)%Q, 2%Q) /\
  get_threshold_range (- (1 # 1152921504606846976)) 3 1 2 = (2%Q, 3%Q).
Proof.
  split.
  - apply (proj1 (get_threshold_range_both_sides_out (-3) 12 2 10
                    ltac:(lra) ltac:(lra)
                    ltac:(split; vm_compute; discriminate)
                    ltac:(split; vm_compute; discriminate))).
    vm_compute. reflexivity.
  - apply (proj2 (get_threshold_range_both_sides_out
                    (- (1 # 1152921504606846976)) 3 1 2
                    ltac:(lra) ltac:(lra)
                    ltac:(split; vm_compute; discriminate)
                    ltac:(split; vm_compute; discriminate))).
    vm_compute. discriminate.
Defined.

(** X3.  For a range and bounds that are both in order the last
    [return lower_std_bound, upper_std_bound] is never reached: the result
    is the input range, its lower segment or its upper segment, and it is
    itself in order. *)
Theorem get_threshold_range_ordered
    (min_v max_v lower_std_bound upper_std_bound : Q) :
  (min_v <= max_v)%Q -> (lower_std_bound <= upper_std_bound)%Q ->
  let r := get_threshold_range min_v max_v lower_std_bound upper_std_bound in
  (r = (min_v, max_v) \/ r = (min_v, lower_std_bound) \/
   r = (upper_std_bound, max_v)) /\
  (r.1 <= r.2)%Q.
Proof.
  intros Hv Hb r. subst r.
  destruct (Qlt_le_dec min_v lower_std_bound) as [Hmin|Hmin],
    (Qlt_le_dec upper_std_bound max_v) as [Hmax|Hmax].
  - destruct (Qlt_le_dec (fsub max_v upper_std_bound)
                (fsub lower_std_bound min_v)).
    + rewrite get_threshold_range_both_lower by lra. split; [auto|cbn; lra].
    + rewrite get_threshold_range_both_upper by lra. split; [auto|cbn; lra].
  - rewrite get_threshold_range_below by lra. split; [auto|cbn; lra].
  - rewrite get_threshold_range_above by lra. split; [auto|cbn; lra].
  - rewrite get_threshold_range_inside by lra. split; [auto|cbn; lra].
Qed.

Lemma get_threshold_range_ordered_witness :
  ((get_threshold_range 11 12 2 10).1 <= (get_threshold_range 11 12 2 10).2)%Q.
Proof.
  apply (get_threshold_range_ordered 11 12 2 10); lra.
Defined.

Lemma truthy_Some (q : Q) : ~ (q == 0)%Q -> truthy (Some q) = true.
Proof.
  intros H. cbn. destruct (Qeq_bool q 0) eqn:E; [|done].
  apply Qeq_bool_iff in E. contradiction.
Qed.

Lemma saved_in_bounds_Some lo up min_v max_v :
  ~ (lo == 0)%Q -> ~ (up == 0)%Q ->
  (min_v <= lo)%Q -> (lo < max_v)%Q -> (min_v < up)%Q -> (up <= max_v)%Q ->
  saved_in_bounds (Some lo) (Some up) min_v max_v = Some (lo, up).
Proof.
  intros Hlo Hup H1 H2 H3 H4. unfold saved_in_bounds.
  rewrite !truthy_Some by done.
  destruct (Qleb_spec min_v lo); [|contradiction].
  destruct (Qltb_spec lo max_v); [|contradiction].
  destruct (Qltb_spec min_v up); [|contradiction].
  destruct (Qleb_spec up max_v); [|contradiction]. reflexivity.
Qed.

Lemma saved_in_bounds_inv lo up min_v max_v r :
  saved_in_bounds lo up min_v max_v = Some r ->
  exists l u, lo = Some l /\ up = Some u /\ r = (l, u) /\
    (min_v <= l)%Q /\ (l < max_v)%Q /\ (min_v < u)%Q /\ (u <= max_v)%Q.
Proof.
  unfold saved_in_bounds. destruct lo as [l|], up as [u|]; try done.
  destruct (truthy (Some l)), (truthy (Some u)); try done; cbn [andb].
  destruct (Qleb_spec min_v l); [|done].
  destruct (Qltb_spec l max_v); [|done].
  destruct (Qltb_spec min_v u); [|done].
  destruct (Qleb_spec u max_v); [|done]. cbn.
  intros [= <-]. exists l, u. auto 10.
Qed.

(** X4.  Saved thresholds that are both non-zero and lie within the
    observed bounds ([min_v <= min < max_v], [min_v < max <= max_v]) are
    returned as they are, whatever the method, a method name the function
    does not know included.  Nothing asks [min <= max]. *)
Theorem get_plot_defaults_saved_reused
    (h : Host) (ps : PanelState) (field field_name method : string)
    (cfg : IssueConfig) (min_v max_v lo up : Q) :
  issue_config ps !! field = Some cfg ->
  FIELD_NAME h !! field = Some field_name ->
  dataset_bounds h field_name = Ok (min_v, max_v) ->
  cfg_min cfg = Some lo -> cfg_max cfg = Some up ->
  ~ (lo == 0)%Q -> ~ (up == 0)%Q ->
  (min_v <= lo)%Q -> (lo < max_v)%Q -> (min_v < up)%Q -> (up <= max_v)%Q ->
  get_plot_defaults h ps field method = Ok (Some (lo, up)).
Proof.
  intros Hc Hf Hb Hlo Hup Hl0 Hu0 H1 H2 H3 H4.
  rewrite (get_plot_defaults_resolve _ _ _ _ _ _ _ _ Hc Hf Hb).
  unfold resolve_plot_defaults. rewrite Hlo, Hup.
  by rewrite saved_in_bounds_Some.
Qed.

Lemma get_plot_defaults_saved_reused_witness :
  get_plot_defaults (example_host (0, 100)%Q (Ok None) 0)
    (example_panel {| cfg_min := Some 80%Q; cfg_max := Some 20%Q;
                      detect_method := "percentage" |} "" "")
    "brightness" "no such method" = Ok (Some (80%Q, 20%Q)).
Proof.
  apply (get_plot_defaults_saved_reused
           (example_host (0, 100)%Q (Ok None) 0)
           (example_panel {| cfg_min := Some 80%Q; cfg_max := Some 20%Q;
                             detect_method := "percentage" |} "" "")
           "brightness" "brightness"
           "no such method" _ 0 100 80 20
           eq_refl eq_refl eq_refl eq_refl eq_refl); lra.
Defined.

(** X5.  With method ["threshold"] and saved numbers [min], [max]: a
    [max] below the observed minimum collapses the result to [(max, max)];
    otherwise a [min] above the observed maximum collapses it to
    [(min, min)]; otherwise the saved pair is the result. *)
Theorem get_plot_defaults_threshold
    (h : Host) (ps : PanelState) (field field_name : string)
    (cfg : IssueConfig) (min_v max_v lo up : Q) :
  issue_config ps !! field = Some cfg ->
  FIELD_NAME h !! field = Some field_name ->
  dataset_bounds h field_name = Ok (min_v, max_v) ->
  cfg_min cfg = Some lo -> cfg_max cfg = Some up ->
  ((up < min_v)%Q ->
   get_plot_defaults h ps field "threshold" = Ok (Some (up, up))) /\
  ((min_v <= up)%Q -> (max_v < lo)%Q ->
   get_plot_defaults h ps field "threshold" = Ok (Some (lo, lo))) /\
  ((min_v <= up)%Q -> (lo <= max_v)%Q ->
   get_plot_defaults h ps field "threshold" = Ok (Some (lo, up))).
Proof.
  intros Hc Hf Hb Hlo Hup.
  rewrite (get_plot_defaults_resolve _ _ _ _ _ _ _ _ Hc Hf Hb).
  unfold resolve_plot_defaults. rewrite Hlo, Hup.
  destruct (saved_in_bounds (Some lo) (Some up) min_v max_v) as [r|] eqn:E.
  - apply saved_in_bounds_inv in E
      as (l & u & [= <-] & [= <-] & -> & H1 & H2 & H3 & H4).
    split; [intros; lra|]. split; [intros; lra|]. done.
  - cbn [String.eqb Ascii.eqb Bool.eqb]. split; [|split].
    + intros H. by destruct (Qltb_spec up min_v).
    + intros H1 H2. destruct (Qltb_spec up min_v); [lra|].
      by destruct (Qltb_spec max_v lo).
    + intros H1 H2. destruct (Qltb_spec up min_v); [lra|].
      destruct (Qltb_spec max_v lo); [lra|done].
Qed.

Lemma get_plot_defaults_threshold_witness :
  get_plot_defaults (example_host (0, 100)%Q (Ok None) 0)
    (example_panel {| cfg_min := Some 150%Q; cfg_max := Some 200%Q;
                      detect_method := "threshold" |} "" "")
    "brightness" "threshold" = Ok (Some (150%Q, 150%Q)).
Proof.
  apply (proj1 (proj2 (get_plot_defaults_threshold
           (example_host (0, 100)%Q (Ok None) 0)
           (example_panel {| cfg_min := Some 150%Q; cfg_max := Some 200%Q;
                             detect_method := "threshold" |} "" "")
           "brightness" "brightness"
           _ 0 100 150 200 eq_refl eq_refl eq_refl eq_refl eq_refl))); lra.
Defined.

(** X6.  With method ["percentage"], saved numbers and observed bounds in
    order, whenever the saved pair is not reused the resolved thresholds
    are in order, the lower one is at most the observed maximum and the
    upper one at least the observed minimum. *)
Theorem get_plot_defaults_percentage_ordered
    (h : Host) (ps : PanelState) (field field_name : string)
    (cfg : IssueConfig) (min_v max_v lo up : Q) :
  issue_config ps !! field = Some cfg ->
  FIELD_NAME h !! field = Some field_name ->
  dataset_bounds h field_name = Ok (min_v, max_v) ->
  cfg_min cfg = Some lo -> cfg_max cfg = Some up ->
  saved_in_bounds (Some lo) (Some up) min_v max_v = None ->
  (min_v <= max_v)%Q ->
  exists lower upper,
    get_plot_defaults h ps field "percentage" = Ok (Some (lower, upper)) /\
    (lower <= upper)%Q /\ (lower <= max_v)%Q /\ (min_v <= upper)%Q.
Proof.
  intros Hc Hf Hb Hlo Hup Hs Hv.
  rewrite (get_plot_defaults_resolve _ _ _ _ _ _ _ _ Hc Hf Hb).
  unfold resolve_plot_defaults. rewrite Hlo, Hup, Hs.
  cbn [String.eqb Ascii.eqb Bool.eqb py_mul mbind res_bind is_not_None andb].
  destruct (Qleb_spec (fadd min_v (fmul lo (fsub max_v min_v))) max_v);
    destruct (Qleb_spec min_v (fadd min_v (fmul up (fsub max_v min_v))));
    match goal with |- context [if Qltb ?a ?b then _ else _] =>
      destruct (Qltb_spec a b) end;
    eexists _, _; (split; [reflexivity|]); lra.
Qed.

Lemma get_plot_defaults_percentage_ordered_witness :
  exists lower upper,
    get_plot_defaults (example_host (10, 110)%Q (Ok None) 0)
      (example_panel {| cfg_min := Some (9 # 10); cfg_max := Some (1 # 10);
                        detect_method := "percentage" |} "" "")
      "brightness" "percentage" = Ok (Some (lower, upper)) /\
    (lower <= upper)%Q.
Proof.
  destruct (get_plot_defaults_percentage_ordered
              (example_host (10, 110)%Q (Ok None) 0)
              (example_panel {| cfg_min := Some (9 # 10);
                                cfg_max := Some (1 # 10);
                                detect_method := "percentage" |} "" "")
              "brightness" "brightness" _ 10 110 (9 # 10) (1 # 10)
              eq_refl eq_refl eq_refl eq_refl eq_refl eq_refl)
    as (lower & upper & H1 & H2 & _); [lra|].
  exists lower, upper. auto.
Defined.

(** ** Further properties of the histogram split *)

Lemma getitem_None {A} (l : list A) i :
  (length l <= i)%nat -> getitem l i = Raise IndexError.
Proof. intros H. unfold getitem. by rewrite lookup_ge_None_2. Qed.

Lemma prepare_histogram_loop_short
    (counts : list Z) (edges : list Q) (lo hi : Q) (m : nat) :
  forall (k : nat) (ins outs : list Z),
    (0 < m)%nat -> (k + m <= length counts)%nat ->
    (length edges <= k + m)%nat ->
    prepare_histogram_loop (seq k m) counts edges lo hi ins outs
      = Raise IndexError.
Proof.
  induction m as [|m IH]; intros k ins outs Hm Hc He; [lia|].
  cbn [seq prepare_histogram_loop].
  destruct (decide (length edges <= k)%nat) as [H0|H0].
  { by rewrite (getitem_None edges k). }
  destruct (lookup_lt_is_Some_2 edges k) as [e0 He0]; [lia|].
  rewrite (getitem_Some _ _ _ He0). cbn [mbind res_bind].
  destruct (decide (length edges <= k + 1)%nat) as [H1|H1].
  { by rewrite (getitem_None edges (k + 1)). }
  destruct (lookup_lt_is_Some_2 edges (k + 1)) as [e1 He1]; [lia|].
  destruct (lookup_lt_is_Some_2 counts k) as [c Hc']; [lia|].
  rewrite (getitem_Some _ _ _ He1), (getitem_Some _ _ _ Hc').
  cbn [mbind res_bind].
  destruct (_ && _); apply IH; lia.
Qed.

(** X7.  When [edges] has no more entries than [counts] (and there is at
    least one bin) the loop reads past the end of [edges]:
    [prepare_histogram_data] raises [IndexError]. *)
Theorem prepare_histogram_data_short_edges
    (counts : list Z) (edges : list Q) (lower_thresh upper_thresh : Q) :
  counts <> [] -> (length edges <= length counts)%nat ->
  prepare_histogram_data counts edges lower_thresh upper_thresh
    = Raise IndexError.
Proof.
  intros Hne Hlen. unfold prepare_histogram_data.
  apply prepare_histogram_loop_short; [|lia|lia].
  destruct counts; [done|cbn; lia].
Qed.

Lemma prepare_histogram_data_short_edges_witness :
  prepare_histogram_data [3; 4]%Z [0; 1]%Q 0 1 = Raise IndexError.
Proof.
  apply (prepare_histogram_data_short_edges [3; 4]%Z [0; 1]%Q 0 1);
    [discriminate|cbn; lia].
Defined.

Lemma foldr_Zadd_snoc (l : list Z) (x : Z) :
  foldr Z.add 0%Z (l ++ [x]) = (foldr Z.add 0 l + x)%Z.
Proof. induction l as [|y l IH]; cbn; [lia|]. rewrite IH. lia. Qed.

Lemma prepare_histogram_loop_sum (edges : list Q) (lo hi : Q) (rest : list Z) :
  forall (pre ins outs ins' outs' : list Z),
    prepare_histogram_loop (seq (length pre) (length rest)) (pre ++ rest)
      edges lo hi ins outs = Ok (ins', outs') ->
    (foldr Z.add 0 ins' + foldr Z.add 0 outs'
     = foldr Z.add 0 ins + foldr Z.add 0 outs + foldr Z.add 0 rest)%Z.
Proof.
  induction rest as [|c rest IH]; intros pre ins outs ins' outs' H.
  - cbn in H. injection H as <- <-. cbn. lia.
  - cbn [length seq prepare_histogram_loop] in H.
    destruct (getitem edges (length pre)) as [e0|]; [|discriminate H].
    cbn [mbind res_bind] in H.
    destruct (getitem edges (length pre + 1)) as [e1|]; [|discriminate H].
    cbn [mbind res_bind] in H.
    rewrite (getitem_Some (pre ++ c :: rest) (length pre) c) in H
      by (by apply list_lookup_middle).
    cbn [mbind res_bind] in H.
    replace (S (length pre)) with (length (pre ++ [c])) in H
      by (rewrite length_app; cbn; lia).
    rewrite (cons_middle c pre rest), app_assoc in H.
    destruct (_ && _); apply IH in H; rewrite H, !foldr_Zadd_snoc; cbn; lia.
Qed.

(** X8.  Whenever [prepare_histogram_data] returns, the two lists together
    hold every counted sample once: their totals add up to the total of
    [counts]. *)
Theorem prepare_histogram_data_total
    (counts : list Z) (edges : list Q) (lower_thresh upper_thresh : Q)
    (in_threshold_counts out_of_threshold_counts : list Z) :
  prepare_histogram_data counts edges lower_thresh upper_thresh
    = Ok (in_threshold_counts, out_of_threshold_counts) ->
  (foldr Z.add 0 in_threshold_counts + foldr Z.add 0 out_of_threshold_counts
   = foldr Z.add 0 counts)%Z.
Proof.
  intros H. unfold prepare_histogram_data in H.
  apply (prepare_histogram_loop_sum edges lower_thresh upper_thresh counts [])
    in H. cbn in H. lia.
Qed.

Lemma prepare_histogram_data_total_witness :
  (foldr Z.add 0 [0; 4; 0] + foldr Z.add 0 [3; 0; 5]
   = foldr Z.add 0 [3; 4; 5])%Z.
Proof.
  apply (prepare_histogram_data_total [3; 4; 5]%Z [0; 1; 2; 3]%Q 1 2).
  reflexivity.
Defined.

(** ** Further properties of the duplicate groups *)

Lemma sum_list_lengths_ge {A} (ls : list (list A)) :
  Forall (fun l => (2 <= length l)%nat) ls ->
  (2 * length ls <= sum_list (length <$> ls))%nat.
Proof. induction 1 as [|l ls Hl _ IH]; cbn; lia. Qed.

Lemma elem_of_exists_filehash {Id} (ds : HashView Id) (id : Id) (h : string) :
  (id, h) ∈ exists_filehash ds <-> (id, Some h) ∈ hash_samples ds.
Proof.
  unfold exists_filehash. rewrite list_elem_of_omap. split.
  - intros ([i [x|]] & Hin & Heq); cbn in Heq; [|done].
    by injection Heq as -> ->.
  - intros Hin. exists (id, Some h). done.
Qed.

(** X9.  Every duplicate group holds at least two sample ids; there are as
    many groups as duplicated hashes; so the count is at least twice the
    number of groups, and it is [0] exactly when no hash is duplicated. *)
Theorem process_exact_duplicates_group_sizes :
  forall (Id : Type) (ds : HashView Id),
    let r := _process_exact_duplicates ds in
    (forall h ids, (h, ids) ∈ r.1.2 -> (2 <= length ids)%nat) /\
    length r.1.1 = length r.1.2 /\
    (2 * length r.1.2 <= r.2)%nat /\
    (r.2 = 0%nat <-> r.1.1 = []).
Proof.
  intros Id ds r. subst r.
  rewrite process_exact_duplicates_unfold.
  set (pairs := if has_filehash_field ds then exists_filehash ds else []).
  set (D := dom _). cbn [fst snd].
  destruct (group_fold_inv D pairs) as (Hnd & Hel & Hsum).
  set (d := foldl _ [] pairs) in *.
  assert (forall h, h ∈ D ->
            (2 <= length (filter (fun p : Id * string => p.2 = h) pairs))%nat)
    as HD.
  { intros h Hh. subst D. apply elem_of_dup_filehashes in Hh.
    by rewrite filter_snd_length in Hh. }
  assert (forall h ids, (h, ids) ∈ d -> (2 <= length ids)%nat) as Hsz.
  { intros h ids Hin. apply Hel in Hin as (Hh & -> & _).
    rewrite length_fmap. by apply HD. }
  assert (length (elements D) = length d) as Hlen.
  { rewrite <- (length_fmap fst d). apply Permutation_length.
    apply NoDup_Permutation; [apply NoDup_elements|done|].
    intros h. rewrite elem_of_elements, list_elem_of_fmap. split.
    - intros Hh. exists (h, (filter (fun p : Id * string => p.2 = h) pairs).*1).
      split; [done|]. apply Hel. split; [done|]. split; [done|].
      intros Hnil. specialize (HD h Hh).
      rewrite <- (length_fmap fst), Hnil in HD. cbn in HD. lia.
    - intros ([k ids] & -> & Hin). by apply Hel in Hin as (? & _). }
  assert (2 * length d <= sum_list (length <$> d.*2))%nat as Hge.
  { rewrite <- (length_fmap snd d). apply sum_list_lengths_ge.
    apply Forall_forall. intros ids Hin.
    apply list_elem_of_fmap in Hin as ([k v] & -> & Hin). by eapply Hsz. }
  split; [done|]. split; [done|]. split; [done|]. split.
  - intros H0. apply length_zero_iff_nil. lia.
  - intros Hnil. rewrite Hnil in Hlen. cbn in Hlen.
    symmetry in Hlen. apply length_zero_iff_nil in Hlen. by rewrite Hlen.
Qed.

(** X10.  The groups list exactly the samples that carry a duplicated
    hash: an id stands under hash [h] only if the dataset has the
    ["filehash"] field and that sample carries [h]; and on such a dataset
    every sample whose hash is in the duplicate list stands in the group
    of its hash.  Samples without a hash value are in no group. *)
Theorem process_exact_duplicates_members :
  forall (Id : Type) (ds : HashView Id) (h : string) (id : Id),
    let r := _process_exact_duplicates ds in
    (forall ids, (h, ids) ∈ r.1.2 -> id ∈ ids ->
       has_filehash_field ds = true /\ (id, Some h) ∈ hash_samples ds) /\
    (has_filehash_field ds = true -> (id, Some h) ∈ hash_samples ds ->
     h ∈ r.1.1 ->
     exists ids, (h, ids) ∈ r.1.2 /\ id ∈ ids).
Proof.
  intros Id ds h id r. subst r.
  rewrite process_exact_duplicates_unfold.
  set (pairs := if has_filehash_field ds then exists_filehash ds else []).
  set (D := dom _). cbn [fst snd].
  destruct (group_fold_inv D pairs) as (Hnd & Hel & Hsum).
  set (d := foldl _ [] pairs) in *.
  assert (forall ids, ids = (filter (fun p : Id * string => p.2 = h) pairs).*1 ->
            id ∈ ids <-> (id, h) ∈ pairs) as Hmem.
  { intros ids ->. rewrite list_elem_of_fmap. split.
    - intros ([i x] & -> & Hin). apply list_elem_of_filter in Hin as [Hx Hin].
      cbn in Hx. by subst x.
    - intros Hin. exists (id, h). split; [done|].
      by apply list_elem_of_filter. }
  split.
  - intros ids Hin Hid. apply Hel in Hin as (_ & Hids & _).
    apply (Hmem ids Hids) in Hid. subst pairs.
    destruct (has_filehash_field ds); [|by apply elem_of_nil in Hid].
    split; [done|]. by apply elem_of_exists_filehash.
  - intros Hf Hs Hh. apply elem_of_elements in Hh.
    assert ((id, h) ∈ pairs) as Hp.
    { subst pairs. rewrite Hf. by apply elem_of_exists_filehash. }
    exists ((filter (fun p : Id * string => p.2 = h) pairs).*1). split.
    + apply Hel. split; [done|]. split; [done|].
      intros Hnil. apply (Hmem _ eq_refl) in Hp. rewrite Hnil in Hp.
      by apply elem_of_nil in Hp.
    + by apply (Hmem _ eq_refl).
Qed.

Lemma process_exact_duplicates_members_witness :
  exists ids,
    (("c", ids) ∈ (_process_exact_duplicates example_hashes).1.2) /\
    (5%nat ∈ ids).
Proof.
  apply (proj2 (process_exact_duplicates_members nat example_hashes "c" 5%nat)).
  - reflexivity.
  - cbn. rewrite !elem_of_cons. auto 10.
  - match goal with |- _ ∈ ?l =>
      replace l with ["c"; "a"] by (vm_compute; reflexivity) end.
    rewrite !elem_of_cons. auto.
Defined.

(** ** Further properties of the computing-status machine *)

(** X11.  On a store that holds a blob [change_computing_status] returns
    normally; it writes the new record for the issue type in the panel
    state and replaces the stored ["computing"] dictionary by the panel's
    one; the stored status of the issue type becomes the given status, or
    stays when none is given; the status of every other issue type and
    the stored results, counts and last scans are left as they were. *)
Theorem change_computing_status_frame
    (issue_type : string) (is_computing : bool)
    (execution_type delegation_run_id delegation_status : string)
    (issue_status : option IssueStatus) (w : World) (content : Content) :
  store w = Some content ->
  let r := change_computing_status issue_type is_computing execution_type
             delegation_run_id delegation_status issue_status w in
  r.1 = Ok tt /\
  computing (panel r.2) !! issue_type
    = Some (computing_entry is_computing execution_type delegation_run_id
              delegation_status) /\
  (forall other, other <> issue_type ->
     computing (panel r.2) !! other = computing (panel w) !! other /\
     persisted_status r.2 other = persisted_status w other) /\
  persisted_status r.2 issue_type
    = match issue_status with
      | Some s => Some s
      | None => persisted_status w issue_type
      end /\
  exists content',
    store r.2 = Some content' /\
    c_computing content' = computing (panel r.2) /\
    c_results content' = c_results content /\
    c_counts content' = c_counts content /\
    c_current_counts content' = c_current_counts content /\
    c_last_scan content' = c_last_scan content.
Proof.
  intros Hs r. subst r.
  rewrite (change_computing_status_run _ _ _ _ _ _ _ _ Hs).
  unfold persisted_status. rewrite Hs. cbn [fst snd store panel mbind option_bind].
  split; [done|]. split; [by cbn; rewrite lookup_insert_eq|]. split; [|split].
  - intros other Hne. cbn. rewrite !lookup_insert_ne by done.
    destruct issue_status; cbn; by rewrite ?lookup_insert_ne.
  - destruct issue_status; cbn; [by rewrite lookup_insert_eq|done].
  - eexists. split; [reflexivity|]. by destruct issue_status.
Qed.

Lemma change_computing_status_frame_witness :
  persisted_status
    (change_computing_status "brightness" false "" "" "" None
       (example_world COMPUTING "execute" "" None)).2 "brightness"
    = Some COMPUTING.
Proof.
  apply (change_computing_status_frame "brightness" false "" "" "" None
           (example_world COMPUTING "execute" "" None) _ eq_refl).
Defined.

(** X12.  On an empty store [change_computing_status] raises [TypeError],
    and the store stays empty; the panel state has been given the new
    record all the same, since it is written first. *)
Theorem change_computing_status_empty_store
    (issue_type : string) (is_computing : bool)
    (execution_type delegation_run_id delegation_status : string)
    (issue_status : option IssueStatus) (w : World) :
  store w = None ->
  let r := change_computing_status issue_type is_computing execution_type
             delegation_run_id delegation_status issue_status w in
  r.1 = Raise TypeError /\ store r.2 = None /\
  computing (panel r.2) !! issue_type
    = Some (computing_entry is_computing execution_type delegation_run_id
              delegation_status).
Proof.
  intros Hs r. subst r. unfold change_computing_status. munfold.
  rewrite Hs. cbn. split; [done|]. split; [done|]. apply lookup_insert_eq.
Qed.

Lemma change_computing_status_empty_store_witness :
  (change_computing_status "brightness" true "execute" "" "" (Some COMPUTING)
     {| store := None; panel := example_panel example_config "" "";
        clock_reads := 0 |}).1 = Raise TypeError.
Proof.
  apply (change_computing_status_empty_store "brightness" true "execute" "" ""
           (Some COMPUTING)
           {| store := None; panel := example_panel example_config "" "";
              clock_reads := 0 |} eq_refl).
Defined.

(** X13.  Without an ["issue_type"] in [ctx.params],
    [check_computing_status] raises [Exception] before it reads the store:
    nothing is changed. *)
Theorem check_computing_status_no_issue_type
    (h : Host) (params : CtxParams) (w : World) :
  p_issue_type params = None ->
  check_computing_status h params w = (Raise Exception, w).
Proof.
  intros Hp. unfold check_computing_status. munfold. by rewrite Hp.
Qed.

Lemma check_computing_status_no_issue_type_witness :
  check_computing_status (example_host (0, 100)%Q (Ok None) 0)
    {| p_issue_type := None; p_run_id := None; p_next_screen := None;
       p_recompute := None |}
    (example_world COMPUTING "execute" "" None)
  = (Raise Exception, example_world COMPUTING "execute" "" None).
Proof.
  apply (check_computing_status_no_issue_type
           (example_host (0, 100)%Q (Ok None) 0)
           {| p_issue_type := None; p_run_id := None; p_next_screen := None;
              p_recompute := None |}
           (example_world COMPUTING "execute" "" None) eq_refl).
Defined.

(** X14.  For a run that is not delegated, with a stored scan timestamp
    [t], a poll at a time not later than [t + 10 minutes] (the instant
    [t + 10 minutes] itself included) changes neither the store nor the
    panel state: only the clock has been read, once. *)
Theorem check_computing_status_immediate_in_time
    (h : Host) (params : CtxParams) (w : World) (issue_type : string)
    (content : Content) (last_scan : gmap string LastScan)
    (entry : LastScan) (t : Z) :
  p_issue_type params = Some issue_type ->
  store w = Some content ->
  execution_type <$> (c_computing content !! issue_type)
    <> Some "delegate_execution" ->
  c_last_scan content = Some last_scan ->
  last_scan !! issue_type = Some entry ->
  timestamp entry = Some t ->
  (utc_clock h (clock_reads w) <= t + timedelta_minutes 10)%Z ->
  check_computing_status h params w
  = (Ok tt, {| store := store w; panel := panel w;
               clock_reads := S (clock_reads w) |}).
Proof.
  intros Hp Hs Hex Hls Hle Hts Hlt.
  unfold check_computing_status. munfold.
  rewrite Hp, Hs. cbv beta iota.
  rewrite bool_decide_eq_false_2 by done. cbn [negb].
  rewrite Hls. cbv beta iota. rewrite Hle. cbv beta iota. rewrite Hts.
  cbv beta iota. cbn [clock_reads].
  destruct (Z.ltb_spec (t + timedelta_minutes 10) (utc_clock h (clock_reads w)));
    [lia|by rewrite Hs].
Qed.

Lemma check_computing_status_immediate_in_time_witness :
  (check_computing_status
     (example_host (0, 100)%Q (Ok None) 600000000) example_params
     (example_world COMPUTING "execute" "" (Some 0%Z))).1 = Ok tt.
Proof.
  rewrite (check_computing_status_immediate_in_time
             (example_host (0, 100)%Q (Ok None) 600000000) example_params
             (example_world COMPUTING "execute" "" (Some 0%Z))
             "brightness"
             (example_content COMPUTING "execute" "" (Some 0%Z))
             {["brightness" := {| timestamp := Some 0%Z;
                                  dataset_size := None |}]}
             {| timestamp := Some 0%Z; dataset_size := None |}
             0%Z eq_refl eq_refl);
    first [reflexivity | discriminate | cbn; lia].
Defined.

(** X15.  For a run that is not delegated and whose last scan has no
    timestamp, the poll stamps the last scan with the current time, keeps
    its dataset size, and saves it; when the clock, read a second time,
    has not gone ten minutes further, nothing else changes. *)
Theorem check_computing_status_stamps_missing_timestamp
    (h : Host) (params : CtxParams) (w : World) (issue_type : string)
    (content : Content) (last_scan : gmap string LastScan)
    (entry : LastScan) :
  p_issue_type params = Some issue_type ->
  store w = Some content ->
  execution_type <$> (c_computing content !! issue_type)
    <> Some "delegate_execution" ->
  c_last_scan content = Some last_scan ->
  last_scan !! issue_type = Some entry ->
  timestamp entry = None ->
  (utc_clock h (S (clock_reads w))
   <= utc_clock h (clock_reads w) + timedelta_minutes 10)%Z ->
  check_computing_status h params w
  = (Ok tt,
     {| store :=
          Some (set_c_last_scan
                  (Some (<[issue_type :=
                             {| timestamp := Some (utc_clock h (clock_reads w));
                                dataset_size := dataset_size entry |}]>
                           last_scan))
                  content);
        panel := panel w;
        clock_reads := S (S (clock_reads w)) |}).
Proof.
  intros Hp Hs Hex Hls Hle Hts Hlt.
  unfold check_computing_status. munfold.
  rewrite Hp, Hs. cbv beta iota.
  rewrite bool_decide_eq_false_2 by done. cbn [negb].
  rewrite Hls. cbv beta iota. rewrite Hle. cbv beta iota. rewrite Hts.
  cbv beta iota. cbn [clock_reads store panel].
  destruct (Z.ltb_spec
              (utc_clock h (clock_reads w) + timedelta_minutes 10)
              (utc_clock h (S (clock_reads w)))); [lia|done].
Qed.

Lemma check_computing_status_stamps_missing_timestamp_witness :
  match store (check_computing_status
                 (example_host (0, 100)%Q (Ok None) 42) example_params
                 (example_world COMPUTING "execute" "" None)).2 with
  | Some content =>
      match c_last_scan content with
      | Some last_scan => timestamp <$> last_scan !! "brightness"
      | None => None
      end
  | None => None
  end = Some (Some 42%Z).
Proof.
  rewrite (check_computing_status_stamps_missing_timestamp
             (example_host (0, 100)%Q (Ok None) 42) example_params
             (example_world COMPUTING "execute" "" None)
             "brightness"
             (example_content COMPUTING "execute" "" None)
             {["brightness" := {| timestamp := None;
                                  dataset_size := None |}]}
             {| timestamp := None; dataset_size := None |}
             eq_refl eq_refl);
    first [reflexivity | discriminate | cbn; lia].
Defined.

(** ** Scans that fail, scans that succeed *)

(** When a dataset query of the scan raises, the scan raises the same
    exception and has written nothing. *)
Lemma process_issue_computation_recompute_scan_raise h it w c e :
  store w = Some c ->
  (it = "exact_duplicates" -> is_Some (c_results c !! it)) ->
  scan_queries h (panel w) it = Raise e ->
  exists k,
    _process_issue_computation_recompute h it w
    = (Raise e, {| store := Some c; panel := panel w; clock_reads := k |}).
Proof.
  destruct w as [s p k]. cbn [store panel]. intros -> Hres.
  unfold _process_issue_computation_recompute, scan_queries.
  munfold. cbv beta iota zeta. cbn [store panel clock_reads].
  destruct (String.eqb_spec it "exact_duplicates") as [Hit|Hit].
  - destruct (_process_exact_duplicates (hash_view h)) as [[? ?] ?].
    destruct (Hres Hit) as [r ->]. cbv beta iota.
    cbn [store panel clock_reads].
    destruct (dataset_count h) as [?|e']; [done|]. intros [= ->]. eauto.
  - destruct (FIELD_NAME h !! it) as [f|]; [|intros [= <-]; eauto].
    cbv beta iota. cbn [store panel clock_reads].
    destruct (dataset_histogram_values h f) as [[? ?]|?];
      [|intros [= <-]; eauto].
    cbv beta iota. cbn [store panel clock_reads].
    destruct (issue_config p !! it) as [cfg|]; [|intros [= <-]; eauto].
    cbv beta iota. cbn [store panel clock_reads].
    destruct (get_plot_defaults h p it (detect_method cfg)) as [[[lo up]|]|?];
      [|intros [= <-]; eauto..].
    cbv beta iota. cbn [store panel clock_reads].
    destruct (dataset_match_count h f (Some lo) (Some up)) as [?|?];
      [|intros [= <-]; eauto].
    cbv beta iota. cbn [store panel clock_reads].
    destruct (dataset_count h) as [?|?]; [done|]. intros [= <-]. eauto.
Qed.

Lemma navigate_to_screen_home h params it rc w :
  p_next_screen params = None ->
  navigate_to_screen h params it "home" rc w
  = (Ok tt,
     {| store := store w;
        panel :=
          set_issue_type None
            (set_hist_thresh None None
               (set_first_open false
                  (set_screen "home"
                     (set_issue_type (Some (default it (p_issue_type params)))
                        (panel w)))));
        clock_reads := clock_reads w |}).
Proof.
  intros Hn. unfold navigate_to_screen. rewrite Hn. cbn [default].
  munfold. reflexivity.
Qed.

(** X16.  When [check_computing_status] polls a delegated run in state
    ["completed"] and returns normally, the status left in the store for
    the issue type is [NEEDS_REVIEW]. *)
Theorem check_computing_status_completed
    (h : Host) (params : CtxParams) (w : World) (issue_type : string)
    (content : Content) :
  p_issue_type params = Some issue_type ->
  store w = Some content ->
  execution_type <$> (c_computing content !! issue_type)
    = Some "delegate_execution" ->
  dos_get h (p_run_id params) = Ok (Some "completed") ->
  (check_computing_status h params w).1 = Ok tt ->
  persisted_status (check_computing_status h params w).2 issue_type
    = Some NEEDS_REVIEW.
Proof.
  intros Hp Hs Hex Hdos Hok.
  destruct (check_computing_status h params w) as [r w'] eqn:E.
  cbn [fst] in Hok. subst r. cbn [snd].
  unfold check_computing_status in E.
  unfold mbind at 1 2 3, M_bind at 1 2 3, lift, store_get, not_None in E.
  rewrite Hp, Hs in E. cbv beta iota in E.
  rewrite (bool_decide_eq_true_2 _ Hex) in E. cbn [negb] in E.
  rewrite Hdos in E.
  rewrite (bool_decide_eq_false_2 (Some "completed" = Some "failed")) in E
    by done.
  rewrite bool_decide_eq_true_2 in E by done.
  apply bind_inv in E as [([] & w1 & H1 & E)|(e & _ & [=])].
  apply bind_inv in E as [([] & w2 & H2 & E)|(e & _ & [=])].
  unfold _process_issue_computation in H2.
  apply bind_inv in H2 as [([] & w2' & H2 & H2')|(e & _ & [=])].
  cbn [negb] in H2'. injection H2' as ->.
  pose proof (process_issue_computation_recompute_status _ _ _ _ H2) as Hst.
  pose proof (process_issue_computation_recompute_scan h issue_type w1) as Hscan.
  destruct (process_issue_computation_recompute_panel h issue_type w1)
    as [Hcfg _].
  rewrite H2 in Hscan, Hcfg. cbn in Hscan, Hcfg.
  apply bind_inv in E as [(ps & w3 & H3 & E)|(e & _ & [=])].
  injection H3 as <- <-.
  destruct (_ && _).
  - eapply navigate_to_screen_status; [by rewrite Hp|exact Hst| |exact E].
    by rewrite (scan_queries_ext h (panel w2) (panel w1)).
  - by injection E as <-.
Qed.

Lemma check_computing_status_completed_witness :
  persisted_status
    (check_computing_status
       (example_host (0, 100)%Q (Ok (Some "completed")) 3600000000)
       example_params
       (example_world COMPUTING "delegate_execution" "running" (Some 0%Z))).2
    "brightness" = Some NEEDS_REVIEW.
Proof.
  apply (check_computing_status_completed
           (example_host (0, 100)%Q (Ok (Some "completed")) 3600000000)
           example_params
           (example_world COMPUTING "delegate_execution" "running" (Some 0%Z))
           "brightness" _ eq_refl eq_refl).
  - reflexivity.
  - reflexivity.
  - vm_compute. reflexivity.
Defined.

(** X17.  When [check_computing_status] polls a delegated run in state
    ["failed"] and a dataset query of the local rescan raises, the handler
    swallows the exception: it returns normally, the alert of the panel is
    ["computation_failed_" + issue_type], the stored status is
    [NOT_COMPUTED] and [is_computing] is [false].  ([ctx.params] carries
    no ["next_screen"].) *)
Theorem check_computing_status_failed_rescan_raises
    (h : Host) (params : CtxParams) (w : World) (issue_type : string)
    (content : Content) (e : exn) :
  p_issue_type params = Some issue_type ->
  p_next_screen params = None ->
  store w = Some content ->
  execution_type <$> (c_computing content !! issue_type)
    = Some "delegate_execution" ->
  dos_get h (p_run_id params) = Ok (Some "failed") ->
  (issue_type = "exact_duplicates" ->
   is_Some (c_results content !! issue_type)) ->
  scan_queries h (panel w) issue_type = Raise e ->
  let r := check_computing_status h params w in
  r.1 = Ok tt /\
  alert (panel r.2) = "computation_failed_" +:+ issue_type /\
  persisted_status r.2 issue_type = Some NOT_COMPUTED /\
  is_computing <$> persisted_computing r.2 issue_type = Some false.
Proof.
  intros Hp Hn Hs Hex Hdos Hres Hscan r. subst r.
  destruct (check_computing_status h params w) as [r w'] eqn:E.
  unfold check_computing_status in E.
  unfold mbind at 1 2 3, M_bind at 1 2 3, lift, store_get, not_None in E.
  rewrite Hp, Hs in E. cbv beta iota in E.
  rewrite (bool_decide_eq_true_2 _ Hex) in E. cbn [negb] in E.
  rewrite Hdos in E. rewrite bool_decide_eq_true_2 in E by done.
  unfold mbind at 1, M_bind at 1 in E.
  rewrite (change_computing_status_run _ _ _ _ _ _ _ _ Hs) in E.
  match type of E with
  | try_except _ _ ?w1 = _ =>
      destruct (process_issue_computation_recompute_scan_raise h issue_type
                  w1 _ e eq_refl) as [k Hk]
  end.
  { cbn. exact Hres. }
  { cbn [panel]. by rewrite (scan_queries_ext h _ (panel w)). }
  unfold try_except, _process_issue_computation in E.
  unfold mbind at 1, M_bind at 1 in E. rewrite Hk in E.
  munfold. cbn [store panel clock_reads] in E.
  case_bool_decide as Hit.
  - rewrite (navigate_to_screen_home _ _ _ _ _ Hn) in E.
    injection E as <- <-. unfold persisted_status, persisted_computing.
    cbn. rewrite !lookup_insert_eq. done.
  - injection E as <- <-. unfold persisted_status, persisted_computing.
    cbn. rewrite !lookup_insert_eq. done.
Qed.

Lemma check_computing_status_failed_rescan_raises_witness :
  (check_computing_status (example_host_no_values (Ok (Some "failed")))
     example_params
     (example_world COMPUTING "delegate_execution" "running" (Some 0%Z))).1
  = Ok tt /\
  persisted_status
    (check_computing_status (example_host_no_values (Ok (Some "failed")))
       example_params
       (example_world COMPUTING "delegate_execution" "running" (Some 0%Z))).2
    "brightness" = Some NOT_COMPUTED.
Proof.
  destruct (check_computing_status_failed_rescan_raises
              (example_host_no_values (Ok (Some "failed"))) example_params
              (example_world COMPUTING "delegate_execution" "running"
                 (Some 0%Z))
              "brightness" _ ValueError eq_refl eq_refl eq_refl)
    as (H1 & _ & H3 & _).
  - reflexivity.
  - reflexivity.
  - intros [=].
  - vm_compute. reflexivity.
  - split; [exact H1|exact H3].
Defined.

(** X18.  [change_view] on an issue type other than ["exact_duplicates"],
    with a lower or an upper threshold that is set and not [0]: the number
    of samples the dataset matches within the thresholds is written to the
    panel's issue counts and to the stored current counts; a stored status
    [NOT_COMPUTED] becomes [NEEDS_REVIEW], any other status stays; the
    stored counts and results are not touched. *)
Theorem change_view_counts
    (h : Host) (issue_type : string) (w : World) (content : Content)
    (field : string) (st : IssueStatus) (n : nat) :
  FIELD_NAME h !! issue_type = Some field ->
  store w = Some content ->
  c_status content !! issue_type = Some st ->
  issue_type <> "exact_duplicates" ->
  truthy (hist_lower_thresh (panel w)) || truthy (hist_upper_thresh (panel w))
    = true ->
  dataset_match_count h field
    (hist_lower_thresh (panel w)) (hist_upper_thresh (panel w)) = Ok n ->
  let r := change_view h issue_type w in
  r.1 = Ok tt /\
  issue_counts (panel r.2) !! issue_type = Some n /\
  persisted_status r.2 issue_type
    = Some (if bool_decide (st = NOT_COMPUTED) then NEEDS_REVIEW else st) /\
  exists content',
    store r.2 = Some content' /\
    c_current_counts content' !! issue_type = Some n /\
    c_counts content' = c_counts content /\
    c_results content' = c_results content.
Proof.
  intros Hf Hs Hst Hne Ht Hn r. subst r.
  unfold change_view. munfold. rewrite Hf, Hs. cbv beta iota.
  rewrite Hst. cbv beta iota. rewrite Ht, !andb_true_r.
  unfold persisted_status.
  case_bool_decide as Hin; cbn [negb].
  - assert (String.eqb issue_type "near_duplicates" = true) as ->.
    { apply String.eqb_eq. revert Hin.
      rewrite !elem_of_cons, elem_of_nil. naive_solver. }
    rewrite Hn. cbn. rewrite !lookup_insert_eq.
    split; [done|]. split; [done|]. split.
    + case_bool_decide; cbn; [by rewrite lookup_insert_eq|done].
    + eexists. split; [reflexivity|]. cbn. rewrite lookup_insert_eq.
      by case_bool_decide.
  - rewrite Hn. cbn. rewrite !lookup_insert_eq.
    split; [done|]. split; [done|]. split.
    + case_bool_decide; cbn; [by rewrite lookup_insert_eq|done].
    + eexists. split; [reflexivity|]. cbn. rewrite lookup_insert_eq.
      by case_bool_decide.
Qed.

Lemma change_view_counts_witness :
  issue_counts
    (panel
       (change_view (example_host (0, 100)%Q (Ok None) 0) "brightness"
          {| store := Some (example_content NOT_COMPUTED "execute" "" None);
             panel := set_hist_thresh (Some 10%Q) None
                        (example_panel example_config "execute" "");
             clock_reads := 0 |}).2) !! "brightness" = Some 7%nat /\
  persisted_status
    (change_view (example_host (0, 100)%Q (Ok None) 0) "brightness"
       {| store := Some (example_content NOT_COMPUTED "execute" "" None);
          panel := set_hist_thresh (Some 10%Q) None
                     (example_panel example_config "execute" "");
          clock_reads := 0 |}).2 "brightness" = Some NEEDS_REVIEW.
Proof.
  destruct (change_view_counts
              (example_host (0, 100)%Q (Ok None) 0) "brightness"
              {| store := Some (example_content NOT_COMPUTED "execute" "" None);
                 panel := set_hist_thresh (Some 10%Q) None
                            (example_panel example_config "execute" "");
                 clock_reads := 0 |}
              (example_content NOT_COMPUTED "execute" "" None)
              "brightness" NOT_COMPUTED 7%nat
              eq_refl eq_refl eq_refl)
    as (_ & H2 & H3 & _).
  - discriminate.
  - reflexivity.
  - reflexivity.
  - split; [exact H2|exact H3].
Defined.

(** X19.  [change_view] on an issue type other than ["exact_duplicates"]
    with both thresholds unset or [0] writes nothing: not even the
    promotion of a [NOT_COMPUTED] status to [NEEDS_REVIEW], which is only
    made on the local copy of the blob. *)
Theorem change_view_no_thresholds
    (h : Host) (issue_type : string) (w : World) (content : Content)
    (field : string) (st : IssueStatus) :
  FIELD_NAME h !! issue_type = Some field ->
  store w = Some content ->
  c_status content !! issue_type = Some st ->
  issue_type <> "exact_duplicates" ->
  truthy (hist_lower_thresh (panel w)) = false ->
  truthy (hist_upper_thresh (panel w)) = false ->
  change_view h issue_type w = (Ok tt, w).
Proof.
  intros Hf Hs Hst Hne Hl Hu.
  unfold change_view. munfold. rewrite Hf, Hs. cbv beta iota.
  rewrite Hst. cbv beta iota. rewrite Hl, Hu. cbn [orb].
  rewrite !andb_false_r.
  destruct (String.eqb_spec issue_type "exact_duplicates"); [done|].
  reflexivity.
Qed.

Lemma change_view_no_thresholds_witness :
  change_view (example_host (0, 100)%Q (Ok None) 0) "brightness"
    {| store := Some (example_content NOT_COMPUTED "execute" "" None);
       panel := set_hist_thresh (Some 0%Q) None
                  (example_panel example_config "execute" "");
       clock_reads := 0 |}
  = (Ok tt,
     {| store := Some (example_content NOT_COMPUTED "execute" "" None);
        panel := set_hist_thresh (Some 0%Q) None
                   (example_panel example_config "execute" "");
        clock_reads := 0 |}).
Proof.
  apply (change_view_no_thresholds
           (example_host (0, 100)%Q (Ok None) 0) "brightness"
           {| store := Some (example_content NOT_COMPUTED "execute" "" None);
              panel := set_hist_thresh (Some 0%Q) None
                         (example_panel example_config "execute" "");
              clock_reads := 0 |}
           (example_content NOT_COMPUTED "execute" "" None)
           "brightness" NOT_COMPUTED eq_refl eq_refl eq_refl).
  - discriminate.
  - reflexivity.
  - reflexivity.
Defined.

(** X20.  A scan that returns has read the clock once and has saved, for
    its issue type: the time read and the size of the dataset as the last
    scan, the status [NEEDS_REVIEW], a computing record that is no longer
    computing and keeps the stored execution type; for a histogram issue
    type the counts and edges the dataset returned, for exact duplicates
    the number of duplicates.  The last scans of the other issue types
    are kept. *)
Theorem process_issue_computation_records
    (h : Host) (issue_type : string) (w : World) :
  (_process_issue_computation_recompute h issue_type w).1 = Ok tt ->
  let w' := (_process_issue_computation_recompute h issue_type w).2 in
  clock_reads w' = S (clock_reads w) /\
  (exists n,
     dataset_count h = Ok n /\
     persisted_last_scan w' issue_type
       = Some {| timestamp := Some (utc_clock h (clock_reads w));
                 dataset_size := Some n |}) /\
  (forall other, other <> issue_type ->
     persisted_last_scan w' other = persisted_last_scan w other) /\
  persisted_status w' issue_type = Some NEEDS_REVIEW /\
  persisted_computing w' issue_type
    = Some (computing_entry false
              (default "" (execution_type <$> persisted_computing w issue_type))
              (default "" (delegation_run_id <$> persisted_computing w issue_type))
              "") /\
  exists content',
    store w' = Some content' /\
    if String.eqb issue_type "exact_duplicates" then
      c_counts content' !! issue_type
        = Some (_process_exact_duplicates (hash_view h)).2
    else
      exists field counts edges,
        FIELD_NAME h !! issue_type = Some field /\
        dataset_histogram_values h field = Ok (counts, edges) /\
        c_results content' !! issue_type
          = Some {| r_counts := Some counts; r_edges := Some edges;
                    r_dup_filehash := None; r_dup_sample_ids := None |}.
Proof.
  intros H w'. subst w'. revert H.
  destruct w as [s p k].
  unfold _process_issue_computation_recompute,
    persisted_last_scan, persisted_status, persisted_computing.
  munfold. cbv beta iota zeta. cbn [store panel clock_reads].
  destruct s as [c|]; cycle 1.
  { destruct (String.eqb issue_type "exact_duplicates").
    - by destruct (_process_exact_duplicates (hash_view h)) as [[? ?] ?].
    - destruct (FIELD_NAME h !! issue_type) as [f|]; [|done]. cbv beta iota.
      by destruct (dataset_histogram_values h f) as [[? ?]|?]. }
  cbv beta iota.
  destruct (String.eqb issue_type "exact_duplicates").
  - destruct (_process_exact_duplicates (hash_view h)) as [[dfh dsi] nd].
    cbv beta iota.
    destruct (c_results c !! issue_type); [|done]. cbv beta iota.
    cbn [store panel clock_reads].
    destruct (dataset_count h) as [n|?]; [|done]. cbv beta iota.
    cbn [store panel clock_reads].
    destruct (new_samples p !! issue_type) as [[[? ?] ?]|]; [|done].
    cbv beta iota.
    destruct (_ && _); cbn [store panel clock_reads];
      erewrite change_computing_status_run by reflexivity;
      cbn; intros _; rewrite !lookup_insert_eq;
      (split; [done|]); (split; [by eauto|]);
      (split; [intros other Hne; rewrite lookup_insert_ne by done;
               by destruct (c_last_scan c)|]);
      (split; [done|]); (split; [done|]);
      eexists; (split; [reflexivity|]); cbn; by rewrite lookup_insert_eq.
  - destruct (FIELD_NAME h !! issue_type) as [f|]; [|done]. cbv beta iota.
    destruct (dataset_histogram_values h f) as [[counts edges]|?] eqn:Hhv;
      [|done].
    cbv beta iota. cbn [store panel clock_reads].
    destruct (issue_config p !! issue_type) as [cfg|]; [|done].
    cbv beta iota. cbn [store panel clock_reads].
    destruct (get_plot_defaults h p issue_type (detect_method cfg))
      as [[[lo up]|]|?]; [|done|done].
    cbv beta iota. cbn [store panel clock_reads].
    destruct (dataset_match_count h f (Some lo) (Some up)) as [?|?]; [|done].
    cbv beta iota. cbn [store panel clock_reads].
    destruct (dataset_count h) as [n|?]; [|done]. cbv beta iota.
    cbn [store panel clock_reads].
    destruct (new_samples p !! issue_type) as [[[? ?] ?]|]; [|done].
    cbv beta iota.
    destruct (_ && _); cbn [store panel clock_reads];
      erewrite change_computing_status_run by reflexivity;
      cbn; intros _; rewrite !lookup_insert_eq;
      (split; [done|]); (split; [by eauto|]);
      (split; [intros other Hne; rewrite lookup_insert_ne by done;
               by destruct (c_last_scan c)|]);
      (split; [done|]); (split; [done|]);
      eexists; (split; [reflexivity|]); cbn;
      exists f, counts, edges; by rewrite lookup_insert_eq.
Qed.

Lemma process_issue_computation_records_witness :
  clock_reads
    (_process_issue_computation_recompute
       (example_host (0, 100)%Q (Ok None) 42) "brightness"
       (example_world COMPUTING "execute" "" None)).2 = 1%nat /\
  persisted_status
    (_process_issue_computation_recompute
       (example_host (0, 100)%Q (Ok None) 42) "brightness"
       (example_world COMPUTING "execute" "" None)).2 "brightness"
  = Some NEEDS_REVIEW.
Proof.
  destruct (process_issue_computation_records
              (example_host (0, 100)%Q (Ok None) 42) "brightness"
              (example_world COMPUTING "execute" "" None))
    as (H1 & _ & _ & H4 & _).
  - vm_compute. reflexivity.
  - split; [exact H1|exact H4].
Defined.

(** X21.  When one of the dataset queries of a scan raises, the scan
    raises the same exception, and neither the store nor the panel state
    has changed: the results are saved only after the last query. *)
Theorem process_issue_computation_scan_raises
    (h : Host) (issue_type : string) (w : World) (content : Content)
    (e : exn) :
  store w = Some content ->
  (issue_type = "exact_duplicates" ->
   is_Some (c_results content !! issue_type)) ->
  scan_queries h (panel w) issue_type = Raise e ->
  let r := _process_issue_computation_recompute h issue_type w in
  r.1 = Raise e /\ store r.2 = store w /\ panel r.2 = panel w.
Proof.
  intros Hs Hres Hscan r. subst r.
  destruct (process_issue_computation_recompute_scan_raise
              h issue_type w content e Hs Hres Hscan) as [k ->].
  cbn. by rewrite Hs.
Qed.

Lemma process_issue_computation_scan_raises_witness :
  (_process_issue_computation_recompute
     (example_host_no_values (Ok None)) "brightness"
     (example_world COMPUTING "execute" "" None)).1 = Raise ValueError /\
  store
    (_process_issue_computation_recompute
       (example_host_no_values (Ok None)) "brightness"
       (example_world COMPUTING "execute" "" None)).2
  = store (example_world COMPUTING "execute" "" None).
Proof.
  destruct (process_issue_computation_scan_raises
              (example_host_no_values (Ok None)) "brightness"
              (example_world COMPUTING "execute" "" None)
              (example_content COMPUTING "execute" "" None)
              ValueError eq_refl)
    as (H1 & H2 & _).
  - intros [=].
  - vm_compute. reflexivity.
  - split; [exact H1|exact H2].
Defined.

(** ** Access levels and wait times *)

(** X22.  [missing_min_access_required]: a user who does not miss the
    access level ["EDIT"] does not miss ["TAG"] either; for a required
    level other than ["TAG"] and ["EDIT"] every signed-in user misses it,
    whatever their permission, and nobody does when no user is signed
    in. *)
Theorem missing_min_access_required_levels (user : option User) :
  (missing_min_access_required user "EDIT" = false ->
   missing_min_access_required user "TAG" = false) /\
  (forall level, level <> "TAG" -> level <> "EDIT" ->
     missing_min_access_required user level
     = match user with Some _ => true | None => false end).
Proof.
  split.
  - destruct user as [[p]|]; [|done]. cbn.
    rewrite !negb_false_iff, !bool_decide_eq_true.
    rewrite !elem_of_cons, !elem_of_nil. naive_solver.
  - intros level H1 H2. destruct user as [u|]; [|done].
    unfold missing_min_access_required.
    destruct (String.eqb_spec level "TAG"); [done|].
    by destruct (String.eqb_spec level "EDIT").
Qed.

Lemma missing_min_access_required_levels_witness :
  missing_min_access_required
    (Some {| dataset_permission := Some "MANAGE" |}) "TAG" = false.
Proof.
  apply (proj1 (missing_min_access_required_levels
                  (Some {| dataset_permission := Some "MANAGE" |}))).
  reflexivity.
Defined.

(** X23.  [estimate_execution_wait_time]: an estimate is a non-negative
    multiple of 45 seconds; with a positive [subset] below 5000 it is [0]
    for every issue type, and the dataset is not counted (the call
    returns even when counting would raise). *)
Theorem estimate_execution_wait_time_steps
    (h : Host) (ps : PanelState) (subset : Z) :
  (forall t, estimate_execution_wait_time h ps subset = Ok t ->
     (0 <= t)%Z /\ (45 | t)%Z) /\
  ((0 < subset < 5000)%Z ->
   estimate_execution_wait_time h ps subset = Ok 0%Z).
Proof.
  unfold estimate_execution_wait_time. split.
  - intros t. unfold mbind, res_bind.
    assert (forall size : Z, (0 <= size)%Z ->
              (0 <= size / 5000)%Z) as Hdiv
      by (intros; apply Z.div_pos; lia).
    assert (exists size,
              (0 <= size)%Z /\
              ((if (0 <? subset)%Z then Ok subset
                else match dataset_count h with
                     | Ok n => Ok (Z.of_nat n)
                     | Raise e => Raise e
                     end) = Ok size \/
               exists e,
                 (if (0 <? subset)%Z then Ok subset
                  else match dataset_count h with
                       | Ok n => Ok (Z.of_nat n)
                       | Raise e => Raise e
                       end) = Raise e)) as (size & Hpos & [-> | [e ->]]).
    { destruct (Z.ltb_spec 0 subset).
      - exists subset. split; [lia|by left].
      - destruct (dataset_count h) as [n|e].
        + exists (Z.of_nat n). split; [lia|by left].
        + exists 0%Z. split; [lia|right; by exists e]. }
    + specialize (Hdiv size Hpos).
      repeat case_bool_decide; intros [= <-]; (split; [lia|]);
        first [ by exists (size / 5000)%Z; lia
              | by exists (3 * (size / 5000))%Z; lia
              | by exists (2 * (size / 5000))%Z; lia
              | by exists 0%Z ].
    + done.
  - intros Hs. destruct (Z.ltb_spec 0 subset); [|lia].
    unfold mbind, res_bind.
    rewrite (Z.div_small subset 5000) by lia.
    by repeat case_bool_decide.
Qed.

Lemma estimate_execution_wait_time_steps_witness :
  estimate_execution_wait_time
    (example_host (0, 100)%Q (Ok None) 0)
    (set_issue_type (Some "near_duplicates")
       (example_panel example_config "" ""))
    4999 = Ok 0%Z.
Proof.
  apply (proj2 (estimate_execution_wait_time_steps
                  (example_host (0, 100)%Q (Ok None) 0)
                  (set_issue_type (Some "near_duplicates")
                     (example_panel example_config "" ""))
                  4999)).
  lia.
Defined.

(** ** Starting and cancelling a computation *)

Lemma on_compute_option_selected_run params selected_option execution_option
    run_id w it ns :
  p_issue_type params = Some it ->
  new_samples (panel w) !! it = Some ns ->
  _on_compute_option_selected params selected_option execution_option run_id w
  = (let w1 :=
       if (0 <? ns.1.1)%nat
       then {| store := store w;
               panel := set_new_samples
                          (<[it := (ns.1.1, ns.1.2, true)]>
                             (new_samples (panel w))) (panel w);
               clock_reads := clock_reads w |}
       else w in
     let dropdown_value := default execution_option selected_option in
     if String.eqb dropdown_value "execute" then
       change_computing_status it true "execute" "" "" (Some (STATUS 1)) w1
     else if bool_decide (dropdown_value ∈ ["delegate"; "delegate_execution"])
     then change_computing_status it true "delegate_execution" run_id ""
            (Some (STATUS 1)) w1
     else (Ok tt, w1)).
Proof.
  intros Hp Hns. unfold _on_compute_option_selected. munfold.
  rewrite Hp, Hns. cbv beta iota zeta.
  destruct (0 <? ns.1.1)%nat; cbv beta iota;
    (destruct (String.eqb _ _); [reflexivity|]);
    destruct (bool_decide _); reflexivity.
Qed.

(** X24.  [_on_compute_option_selected] on a stored blob, for an issue
    type that has a new-samples record: with the option ["execute"] the
    stored status becomes [COMPUTING] and the computing record says an
    immediate execution is running; with ["delegate"] or
    ["delegate_execution"] it says a delegated one is, and holds the run
    id; with any other option the call returns and neither the store nor
    the computing records change. *)
Theorem on_compute_option_selected_starts
    (params : CtxParams) (selected_option : option string)
    (execution_option run_id : string) (w : World) (issue_type : string)
    (content : Content) (ns : nat * bool * bool) :
  p_issue_type params = Some issue_type ->
  store w = Some content ->
  new_samples (panel w) !! issue_type = Some ns ->
  let dropdown_value := default execution_option selected_option in
  let r := _on_compute_option_selected params selected_option
             execution_option run_id w in
  r.1 = Ok tt /\
  (dropdown_value = "execute" ->
   persisted_status r.2 issue_type = Some COMPUTING /\
   persisted_computing r.2 issue_type
     = Some (computing_entry true "execute" "" "")) /\
  (dropdown_value ∈ ["delegate"; "delegate_execution"] ->
   persisted_status r.2 issue_type = Some COMPUTING /\
   persisted_computing r.2 issue_type
     = Some (computing_entry true "delegate_execution" run_id "")) /\
  (dropdown_value ∉ ["execute"; "delegate"; "delegate_execution"] ->
   store r.2 = store w /\ computing (panel r.2) = computing (panel w)).
Proof.
  intros Hp Hs Hns dv r. subst r.
  rewrite (on_compute_option_selected_run _ _ _ _ _ _ _ Hp Hns).
  cbv zeta. fold dv.
  set (w1 := if (0 <? ns.1.1)%nat then _ else w).
  assert (store w1 = Some content) as Hs1.
  { subst w1. by destruct (0 <? ns.1.1)%nat. }
  assert (computing (panel w1) = computing (panel w)) as Hc1.
  { subst w1. by destruct (0 <? ns.1.1)%nat. }
  rewrite !(change_computing_status_run _ _ _ _ _ _ _ _ Hs1).
  unfold persisted_status, persisted_computing.
  destruct (String.eqb_spec dv "execute") as [He|He].
  - cbn. rewrite !lookup_insert_eq. split; [done|]. split; [done|].
    split; intros Hin; exfalso; revert Hin; rewrite He;
      rewrite !elem_of_cons, elem_of_nil; naive_solver.
  - case_bool_decide as Hd.
    + cbn. rewrite !lookup_insert_eq. split; [done|]. split; [done|].
      split; [done|]. intros Hn. exfalso. apply Hn.
      rewrite elem_of_cons. by right.
    + cbn. split; [done|]. split; [done|]. split; [done|].
      intros _. by rewrite Hs1, Hs.
Qed.

Lemma on_compute_option_selected_starts_witness :
  persisted_status
    (_on_compute_option_selected example_params (Some "delegate") "execute"
       "64b7f3c2a1d4e5f6a7b8c9d0"
       (example_world NOT_COMPUTED "" "" None)).2 "brightness"
  = Some COMPUTING.
Proof.
  destruct (on_compute_option_selected_starts example_params
              (Some "delegate") "execute" "64b7f3c2a1d4e5f6a7b8c9d0"
              (example_world NOT_COMPUTED "" "" None) "brightness"
              (example_content NOT_COMPUTED "" "" None)
              (0%nat, false, false) eq_refl eq_refl eq_refl)
    as (_ & _ & H & _).
  apply H. cbn. rewrite !elem_of_cons. auto.
Defined.

(** X25.  [cancel_compute]: without an issue type, or with an empty one,
    nothing happens; for an issue type without a computing record in the
    panel state the call raises [KeyError] and nothing is written;
    otherwise the stored status becomes [NOT_COMPUTED] and the computing
    record is cleared: not computing, no execution type, no run id. *)
Theorem cancel_compute_resets (w : World) :
  cancel_compute None w = (Ok tt, w) /\
  cancel_compute (Some "") w = (Ok tt, w) /\
  forall issue_type, issue_type <> "" ->
    (computing (panel w) !! issue_type = None ->
     cancel_compute (Some issue_type) w = (Raise KeyError, w)) /\
    (is_Some (computing (panel w) !! issue_type) -> is_Some (store w) ->
     let r := cancel_compute (Some issue_type) w in
     r.1 = Ok tt /\
     persisted_status r.2 issue_type = Some NOT_COMPUTED /\
     persisted_computing r.2 issue_type
       = Some (computing_entry false "" "" "") /\
     computing (panel r.2) !! issue_type
       = Some (computing_entry false "" "" "")).
Proof.
  split; [done|]. split; [done|]. intros it Hne.
  assert (truthy_str (Some it) = Some it) as Ht by (by destruct it).
  unfold cancel_compute. rewrite Ht. munfold. split.
  - by intros ->.
  - intros [c ->] [content Hs]. cbv beta iota.
    rewrite (change_computing_status_run _ _ _ _ _ _ _ _ Hs).
    unfold persisted_status, persisted_computing. cbn.
    by rewrite !lookup_insert_eq.
Qed.

Lemma cancel_compute_resets_witness :
  persisted_status
    (cancel_compute (Some "brightness")
       (example_world COMPUTING "delegate_execution" "running" None)).2
    "brightness" = Some NOT_COMPUTED.
Proof.
  destruct (cancel_compute_resets
              (example_world COMPUTING "delegate_execution" "running" None))
    as (_ & _ & H).
  destruct (H "brightness") as [_ H'].
  - discriminate.
  - destruct H' as (_ & H2 & _).
    + cbn. eauto.
    + cbn. eauto.
    + exact H2.
Defined.

(** X26.  [on_unload] copies the computing records of the panel state
    into the stored blob and leaves the rest of the blob and the panel
    state as they are; it writes nothing without a dataset or when the
    panel has no computing records.  Right after
    [change_computing_status] the store is already in step with the panel
    state, and unloading changes nothing. *)
Theorem on_unload_flushes (w : World) (content : Content) :
  store w = Some content ->
  on_unload false false w
  = (Ok tt,
     {| store := Some (set_c_computing (computing (panel w)) content);
        panel := panel w; clock_reads := clock_reads w |}) /\
  (forall b, on_unload true b w = (Ok tt, w)) /\
  on_unload false true w = (Ok tt, w) /\
  (forall it ic et rid ds st b b',
     let w1 := (change_computing_status it ic et rid ds st w).2 in
     on_unload b b' w1 = (Ok tt, w1)).
Proof.
  intros Hs. unfold on_unload. munfold. rewrite Hs. cbn [negb].
  split; [done|]. split; [done|]. split; [done|].
  intros it ic et rid ds st b b'.
  rewrite (change_computing_status_run _ _ _ _ _ _ _ _ Hs). cbn.
  destruct b; [done|]. destruct b'; [done|]. cbn.
  by destruct st.
Qed.

Lemma on_unload_flushes_witness :
  on_unload false false
    (change_computing_status "brightness" true "execute" "" ""
       (Some COMPUTING) (example_world NOT_COMPUTED "" "" None)).2
  = (Ok tt,
     (change_computing_status "brightness" true "execute" "" ""
        (Some COMPUTING) (example_world NOT_COMPUTED "" "" None)).2).
Proof.
  destruct (on_unload_flushes (example_world NOT_COMPUTED "" "" None)
              (example_content NOT_COMPUTED "" "" None) eq_refl)
    as (_ & _ & _ & H).
  apply (H "brightness" true "execute" "" "" (Some COMPUTING) false false).
Defined.

(** ** The slider, and resetting an issue *)

(** X27.  [slider_change] writes the two thresholds one after the other
    and then changes the view: without ["value"] in [ctx.params] it raises
    [KeyError], with an empty value [IndexError], both before anything is
    written; with a value of one element it raises [IndexError] after the
    lower threshold has been overwritten; with two elements or more it
    runs [change_view] on the panel state that holds both thresholds, for
    the issue type of the panel, and raises [KeyError] when the panel has
    none. *)
Theorem slider_change_writes (h : Host) (w : World) :
  slider_change h None w = (Raise KeyError, w) /\
  slider_change h (Some []) w = (Raise IndexError, w) /\
  (forall lo,
     slider_change h (Some [lo]) w
     = (Raise IndexError,
        {| store := store w;
           panel := set_hist_thresh lo (hist_upper_thresh (panel w)) (panel w);
           clock_reads := clock_reads w |})) /\
  (forall lo up rest,
     slider_change h (Some (lo :: up :: rest)) w
     = match state_issue_type (panel w) with
       | Some issue_type =>
           change_view h issue_type
             {| store := store w; panel := set_hist_thresh lo up (panel w);
                clock_reads := clock_reads w |}
       | None =>
           (Raise KeyError,
            {| store := store w; panel := set_hist_thresh lo up (panel w);
               clock_reads := clock_reads w |})
       end).
Proof.
  unfold slider_change, getitem. munfold. cbn.
  split; [done|]. split; [done|]. split; [done|].
  intros lo up rest. by destruct (state_issue_type (panel w)).
Qed.

Lemma should_reset_issue_run h it w :
  should_reset_issue h it w
  = if bool_decide (default (STATUS 0) (persisted_status w it)
                    ∈ [STATUS 2; STATUS 3])
    then match FIELD_NAME h !! it with
         | Some f =>
             match dataset_exists_count h f with
             | Ok n => (Ok (n =? 0)%nat, w)
             | Raise e => (Raise e, w)
             end
         | None => (Raise KeyError, w)
         end
    else (Ok false, w).
Proof.
  unfold should_reset_issue. unfold mbind at 1, M_bind at 1.
  rewrite get_issue_status_run. case_bool_decide; [|done].
  munfold. destruct (FIELD_NAME h !! it) as [f|]; [|done]. cbv beta iota.
  destruct (dataset_exists_count h f) as [n|?]; [|done]. cbv beta iota.
  by destruct (n =? 0)%nat.
Qed.

Lemma reset_issue_run h it w c r sample_ls l ls :
  store w = Some c ->
  c_results (SAMPLE_STORE h) !! it = Some r ->
  c_last_scan (SAMPLE_STORE h) = Some sample_ls ->
  sample_ls !! it = Some l ->
  c_last_scan c = Some ls ->
  reset_issue h it w
  = (Ok tt,
     {| store :=
          Some (set_c_last_scan (Some (<[it := l]> ls))
                  (set_c_results (<[it := r]> (c_results c))
                     (set_c_status (<[it := STATUS 0]> (c_status c))
                        (set_c_computing
                           (<[it := computing_entry false "" "" ""]>
                              (computing (panel w))) c))));
        panel := set_computing
                   (<[it := computing_entry false "" "" ""]>
                      (computing (panel w))) (panel w);
        clock_reads := clock_reads w |}).
Proof.
  intros Hs Hr Hsl Hl Hls. unfold reset_issue.
  unfold mbind at 1, M_bind at 1.
  rewrite (change_computing_status_run _ _ _ _ _ _ _ _ Hs).
  munfold. cbn. rewrite Hr, Hsl. cbn. rewrite Hl, Hls. reflexivity.
Qed.

(** X28.  [reset_issue] on a stored blob, for an issue type that
    [SAMPLE_STORE] knows: the stored status becomes [NOT_COMPUTED], the
    computing record is cleared, and the results and the last scan of the
    issue type become those of [SAMPLE_STORE].  The stored counts and
    current counts are not cleared, and the results, last scans and
    statuses of the other issue types are kept. *)
Theorem reset_issue_clears
    (h : Host) (issue_type : string) (w : World) (content : Content)
    (r : ResultEntry) (sample_last_scan last_scan : gmap string LastScan)
    (l : LastScan) :
  store w = Some content ->
  c_results (SAMPLE_STORE h) !! issue_type = Some r ->
  c_last_scan (SAMPLE_STORE h) = Some sample_last_scan ->
  sample_last_scan !! issue_type = Some l ->
  c_last_scan content = Some last_scan ->
  let res := reset_issue h issue_type w in
  res.1 = Ok tt /\
  persisted_status res.2 issue_type = Some NOT_COMPUTED /\
  persisted_computing res.2 issue_type
    = Some (computing_entry false "" "" "") /\
  persisted_last_scan res.2 issue_type = Some l /\
  exists content',
    store res.2 = Some content' /\
    c_results content' !! issue_type = Some r /\
    c_counts content' = c_counts content /\
    c_current_counts content' = c_current_counts content /\
    forall other, other <> issue_type ->
      c_results content' !! other = c_results content !! other /\
      persisted_last_scan res.2 other = persisted_last_scan w other /\
      persisted_status res.2 other = persisted_status w other.
Proof.
  intros Hs Hr Hsl Hl Hls res. subst res.
  rewrite (reset_issue_run _ _ _ _ _ _ _ _ Hs Hr Hsl Hl Hls).
  unfold persisted_status, persisted_computing, persisted_last_scan.
  rewrite Hs. cbn. rewrite Hls, !lookup_insert_eq.
  split; [done|]. split; [done|]. split; [done|]. split; [done|].
  eexists. split; [reflexivity|]. cbn. rewrite lookup_insert_eq.
  split; [done|]. split; [done|]. split; [done|].
  intros other Hne. by rewrite !lookup_insert_ne.
Qed.

Lemma reset_issue_clears_witness :
  persisted_status
    (reset_issue (example_host (0, 100)%Q (Ok None) 0) "brightness"
       (example_world REVIEWED "execute" "" (Some 5%Z))).2 "brightness"
  = Some NOT_COMPUTED /\
  persisted_last_scan
    (reset_issue (example_host (0, 100)%Q (Ok None) 0) "brightness"
       (example_world REVIEWED "execute" "" (Some 5%Z))).2 "brightness"
  = Some {| timestamp := None; dataset_size := None |}.
Proof.
  destruct (reset_issue_clears
              (example_host (0, 100)%Q (Ok None) 0) "brightness"
              (example_world REVIEWED "execute" "" (Some 5%Z))
              (example_content REVIEWED "execute" "" (Some 5%Z))
              {| r_counts := None; r_edges := None; r_dup_filehash := None;
                 r_dup_sample_ids := None |}
              {["brightness" := {| timestamp := None;
                                   dataset_size := None |}]}
              {["brightness" := {| timestamp := Some 5%Z;
                                   dataset_size := None |}]}
              {| timestamp := None; dataset_size := None |}
              eq_refl eq_refl eq_refl eq_refl eq_refl)
    as (_ & H2 & _ & H4 & _).
  split; [exact H2|exact H4].
Defined.

(** X29.  [should_reset_issue] never writes.  For an issue type whose
    stored status is not [NEEDS_REVIEW] or [REVIEWED] (or that has no
    stored status) it answers [False] without a query to the dataset;
    otherwise it answers whether no sample of the dataset has the field
    of the issue type. *)
Theorem should_reset_issue_checks
    (h : Host) (issue_type : string) (w : World) :
  (should_reset_issue h issue_type w).2 = w /\
  (persisted_status w issue_type <> Some NEEDS_REVIEW ->
   persisted_status w issue_type <> Some REVIEWED ->
   should_reset_issue h issue_type w = (Ok false, w)) /\
  (forall field n,
     persisted_status w issue_type = Some NEEDS_REVIEW \/
     persisted_status w issue_type = Some REVIEWED ->
     FIELD_NAME h !! issue_type = Some field ->
     dataset_exists_count h field = Ok n ->
     should_reset_issue h issue_type w = (Ok (bool_decide (n = 0%nat)), w)).
Proof.
  rewrite should_reset_issue_run. split; [|split].
  - case_bool_decide; [|done].
    destruct (FIELD_NAME h !! issue_type) as [f|]; [|done].
    by destruct (dataset_exists_count h f).
  - intros H2 H3. rewrite bool_decide_eq_false_2; [done|].
    rewrite !elem_of_cons, elem_of_nil. cbn.
    destruct (persisted_status w issue_type) as [[]|]; cbn; naive_solver.
  - intros f n Hst Hf Hn. rewrite bool_decide_eq_true_2.
    + rewrite Hf, Hn. f_equal. f_equal.
      destruct n; [done|]. by rewrite bool_decide_eq_false_2.
    + rewrite !elem_of_cons. cbn. destruct Hst as [-> | ->]; cbn; auto.
Qed.

Lemma should_reset_issue_checks_witness :
  should_reset_issue example_host_no_field "brightness"
    (example_world REVIEWED "execute" "" None)
  = (Ok true, example_world REVIEWED "execute" "" None).
Proof.
  destruct (should_reset_issue_checks example_host_no_field "brightness"
              (example_world REVIEWED "execute" "" None)) as (_ & _ & H).
  apply (H "brightness" 0%nat).
  - right. reflexivity.
  - reflexivity.
  - reflexivity.
Defined.



